(** * aatgrid: [examples/visualize_grid.py]

    The script draws two explanatory figures of the Antarctic grid system
    with matplotlib and saves each as a PNG.  It is a module-level script:
    every name is a global, every statement is either an assignment, a
    [for] loop over a literal sequence, a conditional on integers or on a
    string prefix, or a call into matplotlib / numpy / [print].

    The embedding keeps that shape.  Python values are a small universe
    [value]; the globals are an association list; calls into the libraries
    are recorded in a trace, and the library may raise at any of them (the
    [library] record carries that choice and the one piece of library data
    whose value the script passes on, the viridis colormap).  Statements
    live in a reader/state/exception monad [M] that has no handler, as the
    script has no [try]. *)

From Stdlib Require Import ZArith List String Ascii Bool Lia Floats
  DecimalString.
Import ListNotations.

Set Warnings "-inexact-float,-register-all".

Open Scope list_scope.
Open Scope string_scope.
Open Scope Z_scope.

(** ** Python values *)

(** Objects owned by pyplot: figures and axes, numbered in creation order. *)
Inductive handle : Type :=
| Figure (n : nat)
| Axes (n : nat).

Inductive value : Type :=
| VNone
| VBool (b : bool)
| VInt (z : Z)
| VFloat (f : float)
| VStr (s : string)
| VTuple (l : list value)
| VList (l : list value)
| VDict (kw : list (string * value))
| VObj (cls : string) (args : list value) (kw : list (string * value))
| VRef (h : handle)
| VAttr (h : handle) (attr : string).

Definition kwargs := list (string * value).

Definition Int (z : Z) : value := VInt z.
Definition Flt (f : float) : value := VFloat f.
Definition Str (s : string) : value := VStr s.
Definition Pair (a b : value) : value := VTuple [a; b].

(** Who is called: a function of [matplotlib.pyplot], of [plt.cm], of
    [numpy], a method of a figure or axes, a class of [matplotlib.patches]
    being instantiated, or the builtin [print]. *)
Inductive target : Type :=
| Pyplot
| Colormap
| Numpy
| Method (h : handle)
| Patches
| Builtin.

Record call : Type := Call {
  c_target : target;
  c_func : string;
  c_args : list value;
  c_kwargs : kwargs
}.

(** What the script cannot know about the libraries: whether a call raises
    (given everything done so far), and the colours of the viridis map. *)
Record library : Type := Library {
  raises : list call -> call -> option string;
  viridis : float -> value
}.

(** The same library on a day when nothing goes wrong. *)
Definition quiet (lib : library) : library :=
  {| raises := fun _ _ => None; viridis := viridis lib |}.

Inductive exn : Type :=
| LibraryError (c : call) (name : string)
| NameError (x : string)
| TypeError (x : string)
| ValueError
| IndexError (i : Z).

(** ** Interpreter state *)

Definition env := list (string * value).

Fixpoint lookup (x : string) (g : env) : option value :=
  match g with
  | [] => None
  | (y, v) :: g' => if String.eqb x y then Some v else lookup x g'
  end.

(** [trace] holds the calls that returned, newest first; [subscripts] the
    integers at which the script subscripted an array, newest first. *)
Record state : Type := State {
  globals : env;
  trace : list call;
  subscripts : list Z
}.

Definition initial : state := State [] [] [].

Inductive result (A : Type) : Type :=
| Ok (a : A) (s : state)
| Exc (e : exn) (s : state).
Arguments Ok {A} a s.
Arguments Exc {A} e s.

Definition state_of {A} (r : result A) : state :=
  match r with Ok _ s => s | Exc _ s => s end.

Definition M (A : Type) : Type := library -> state -> result A.

Definition ret {A} (a : A) : M A := fun _ s => Ok a s.

Definition bind {A B} (m : M A) (k : A -> M B) : M B :=
  fun lib s =>
    match m lib s with
    | Ok a s' => k a lib s'
    | Exc e s' => Exc e s'
    end.

Definition throw {A} (e : exn) : M A := fun _ s => Exc e s.

Declare Scope py_scope.
Delimit Scope py_scope with py.
Notation "x <- m ;; k" := (bind m (fun x => k))
  (at level 61, m at next level, right associativity) : py_scope.
Notation "m ;; k" := (bind m (fun _ => k))
  (at level 61, right associativity) : py_scope.
Open Scope py_scope.

(** A call into a library: it raises, or it returns and is recorded. *)
Definition invoke (c : call) : M unit :=
  fun lib s =>
    match raises lib (trace s) c with
    | Some e => Exc (LibraryError c e) s
    | None => Ok tt (State (globals s) (c :: trace s) (subscripts s))
    end.

Definition get (x : string) : M value :=
  fun _ s =>
    match lookup x (globals s) with
    | Some v => Ok v s
    | None => Exc (NameError x) s
    end.

Definition assign (x : string) (v : value) : M unit :=
  fun _ s => Ok tt (State ((x, v) :: globals s) (trace s) (subscripts s)).

Definition get_int (x : string) : M Z :=
  v <- get x ;;
  match v with
  | VInt z => ret z
  | _ => throw (TypeError x)
  end.

Definition get_float (x : string) : M float :=
  v <- get x ;;
  match v with
  | VFloat f => ret f
  | _ => throw (TypeError x)
  end.

Definition get_str (x : string) : M string :=
  v <- get x ;;
  match v with
  | VStr s => ret s
  | _ => throw (TypeError x)
  end.

Definition get_ref (x : string) : M handle :=
  v <- get x ;;
  match v with
  | VRef h => ret h
  | _ => throw (TypeError x)
  end.

(** Assignment targets: a name, or a tuple of targets. *)
Inductive pat : Type :=
| PVar (x : string)
| PTuple (ps : list pat).

Fixpoint bindings (p : pat) (v : value) {struct p} : option env :=
  match p with
  | PVar x => Some [(x, v)]
  | PTuple ps =>
      match v with
      | VTuple vs | VList vs =>
          (fix go (ps : list pat) (vs : list value) {struct ps} : option env :=
             match ps, vs with
             | [], [] => Some []
             | p :: ps', v :: vs' =>
                 match bindings p v, go ps' vs' with
                 | Some b, Some bs => Some (b ++ bs)%list
                 | _, _ => None
                 end
             | _, _ => None
             end) ps vs
      | _ => None
      end
  end.

Fixpoint assign_all (bs : env) : M unit :=
  match bs with
  | [] => ret tt
  | (x, v) :: bs' => assign x v ;; assign_all bs'
  end.

(** [a, (b, c) = v] *)
Definition unpack (p : pat) (v : value) : M unit :=
  match bindings p v with
  | Some bs => assign_all bs
  | None => throw ValueError
  end.

(** [for p in vs: body] *)
Fixpoint for_ (p : pat) (vs : list value) (body : M unit) : M unit :=
  match vs with
  | [] => ret tt
  | v :: vs' => unpack p v ;; body ;; for_ p vs' body
  end.

(** [a[i]] on a sequence: Python counts negative [i] from the end. *)
Definition subscript (x : string) (i : Z) : M value :=
  v <- get x ;;
  match v with
  | VList l | VTuple l =>
      fun _ s =>
        let s' := State (globals s) (trace s) (i :: subscripts s) in
        let n := Z.of_nat (List.length l) in
        let k := if i <? 0 then i + n else i in
        if (0 <=? k) && (k <? n)
        then match nth_error l (Z.to_nat k) with
             | Some e => Ok e s'
             | None => Exc (IndexError i) s'
             end
        else Exc (IndexError i) s'
  | _ => throw (TypeError x)
  end.

(** ** Builtins and pure Python expressions *)

(** [range(n)], held as the list of its elements. *)
Definition range (n : nat) : list value :=
  map (fun k => VInt (Z.of_nat k)) (seq 0 n).

(** [range(a, b)] *)
Definition range_from (a b : Z) : list value :=
  map (fun k => VInt (a + Z.of_nat k)) (seq 0 (Z.to_nat (b - a))).

Fixpoint enumerate_from (i : Z) (vs : list value) : list value :=
  match vs with
  | [] => []
  | v :: vs' => VTuple [VInt i; v] :: enumerate_from (i + 1) vs'
  end.

Definition enumerate (vs : list value) : list value := enumerate_from 0 vs.

(** [str(z)] for an integer, as an f-string field renders it. *)
Definition str_int (z : Z) : string := NilZero.string_of_int (Z.to_int z).

(** [float(z)] *)
Definition float_of_int (z : Z) : float :=
  if z <? 0 then PrimFloat.opp (PrimFloat.of_uint63 (Uint63.of_Z (- z)))
  else PrimFloat.of_uint63 (Uint63.of_Z z).

Definition nl : string := String (ascii_of_nat 10) EmptyString.

(** [list * n] *)
Fixpoint repeat_list (l : list value) (n : nat) : list value :=
  match n with
  | O => []
  | S n' => (l ++ repeat_list l n')%list
  end.

(** ** The libraries, as far as the script relies on them *)

(** pyplot's bookkeeping, read off the calls made so far (oldest first):
    how many figures and axes exist, which figure is current, and which
    figure each axes belongs to.  [plt.figure] and [plt.subplots] open a
    figure and make it current; [plt.subplot] and [plt.subplots] add axes
    to the current figure ([plt.subplot] opens one if there is none). *)
Record pyplot : Type := Pyplot_state {
  n_figures : nat;
  n_axes : nat;
  current : option nat;
  owner : list (nat * nat)
}.

Definition pyplot_step (p : pyplot) (c : call) : pyplot :=
  match c_target c with
  | Pyplot =>
      if String.eqb (c_func c) "figure" then
        Pyplot_state (S (n_figures p)) (n_axes p) (Some (n_figures p)) (owner p)
      else if String.eqb (c_func c) "subplots" then
        Pyplot_state (S (n_figures p)) (S (n_axes p)) (Some (n_figures p))
                     (owner p ++ [(n_axes p, n_figures p)])%list
      else if String.eqb (c_func c) "subplot" then
        match current p with
        | Some f =>
            Pyplot_state (n_figures p) (S (n_axes p)) (Some f)
                         (owner p ++ [(n_axes p, f)])%list
        | None =>
            Pyplot_state (S (n_figures p)) (S (n_axes p)) (Some (n_figures p))
                         (owner p ++ [(n_axes p, n_figures p)])%list
        end
      else p
  | _ => p
  end.

Definition pyplot_of (calls : list call) : pyplot :=
  fold_left pyplot_step calls (Pyplot_state 0 0 None []).

(** The pyplot state a script sees, from its (newest-first) trace. *)
Definition pyplot_now : M pyplot :=
  fun _ s => Ok (pyplot_of (rev (trace s))) s.

(** [plt.f(args..., kw...)] for the functions that return nothing of use. *)
Definition plt (f : string) (args : list value) (kw : kwargs) : M unit :=
  invoke (Call Pyplot f args kw).

(** [plt.figure(kw...)] returns the new figure. *)
Definition plt_figure (kw : kwargs) : M value :=
  p <- pyplot_now ;;
  invoke (Call Pyplot "figure" [] kw) ;;
  ret (VRef (Figure (n_figures p))).

(** [plt.subplot(r, c, k)] returns the new axes. *)
Definition plt_subplot (r c k : Z) : M value :=
  p <- pyplot_now ;;
  invoke (Call Pyplot "subplot" [Int r; Int c; Int k] []) ;;
  ret (VRef (Axes (n_axes p))).

(** [plt.subplots(1, 1, kw...)] returns the new figure and its one axes. *)
Definition plt_subplots (r c : Z) (kw : kwargs) : M value :=
  p <- pyplot_now ;;
  invoke (Call Pyplot "subplots" [Int r; Int c] kw) ;;
  ret (VTuple [VRef (Figure (n_figures p)); VRef (Axes (n_axes p))]).

(** [name.f(args..., kw...)] where the global [name] holds a figure or axes. *)
Definition method (name f : string) (args : list value) (kw : kwargs) : M unit :=
  h <- get_ref name ;;
  invoke (Call (Method h) f args kw).

(** [name.attr] *)
Definition attribute (name attr : string) : M value :=
  h <- get_ref name ;;
  ret (VAttr h attr).

(** [Rectangle(...)], [patches.FancyBboxPatch(...)]: the constructor runs
    library code, then the script holds the object. *)
Definition construct (cls : string) (args : list value) (kw : kwargs) : M value :=
  invoke (Call Patches cls args kw) ;;
  ret (VObj cls args kw).

Definition Rectangle := construct "Rectangle".
Definition FancyBboxPatch := construct "FancyBboxPatch".

(** [dict(k=v, ...)] *)
Definition dict (kw : kwargs) : value := VDict kw.

(** [print(s)] *)
Definition print (s : string) : M unit :=
  invoke (Call Builtin "print" [Str s] []).

(** [np.linspace(start, stop, num)] with the default [endpoint=True]:
    [num] samples [start + k * step], [step = (stop - start) / (num - 1)],
    the last one set to [stop] itself. *)
Definition linspace_samples (start stop : float) (num : nat) : list float :=
  let step := ((stop - start) / float_of_int (Z.of_nat (num - 1)))%float in
  map (fun k => if Nat.eqb (S k) num then stop
                else (float_of_int (Z.of_nat k) * step + start)%float)
      (seq 0 num).

Definition np_linspace (start stop : Z) (num : nat) : M (list float) :=
  invoke (Call Numpy "linspace" [Int start; Int stop; Int (Z.of_nat num)] []) ;;
  ret (linspace_samples (float_of_int start) (float_of_int stop) num).

(** [plt.cm.viridis(samples)]: one colour per sample. *)
Definition cm_viridis (ts : list float) : M value :=
  invoke (Call Colormap "viridis" [VList (map VFloat ts)] []) ;;
  fun lib s => Ok (VList (map (viridis lib) ts)) s.

(** ** Statement forms the script uses *)

(** [x = e] where evaluating [e] has effects. *)
Definition set_to (x : string) (m : M value) : M unit :=
  v <- m ;; assign x v.

Notation "x ::= m ;; k" := (bind (set_to x m) (fun _ => k))
  (at level 61, m at next level, right associativity) : py_scope.

(** [for p in x: body] where the global [x] holds a list. *)
Definition for_in (p : pat) (x : string) (body : M unit) : M unit :=
  v <- get x ;;
  match v with
  | VList l | VTuple l => for_ p l body
  | _ => throw (TypeError x)
  end.

(** [for p in enumerate(x): body] *)
Definition for_enumerate (p : pat) (x : string) (body : M unit) : M unit :=
  v <- get x ;;
  match v with
  | VList l | VTuple l => for_ p (enumerate l) body
  | _ => throw (TypeError x)
  end.

(** [ax.add_patch(name)] *)
Definition add_patch (ax name : string) : M unit :=
  h <- get_ref ax ;;
  r <- get name ;;
  invoke (Call (Method h) "add_patch" [r] []).

(** ** The script, statement by statement

    Every name an expression reads is fetched with a [get] just before the
    call the expression feeds, and every assignment is an [assign], so the
    globals are threaded exactly as the module's namespace is.  Reads have
    no effect; their order among themselves is immaterial. *)

(** Lines 13-15. *)
Definition open_overview : M unit :=
  "fig" ::= plt_figure [("figsize", Pair (Int 16) (Int 10))] ;;
  method "fig" "suptitle"
    [Str "Antarctic Territory Grid System - Design Overview"]
    [("fontsize", Int 16); ("fontweight", Str "bold"); ("y", Flt 0.98)].

(** Subplot 1: L1 and L2 grid concept (lines 20-62). *)
Definition panel1 : M unit :=
  "ax1" ::= plt_subplot 2 3 1 ;;
  method "ax1" "set_title" [Str "Grid Hierarchy Concept"]
    [("fontsize", Int 12); ("fontweight", Str "bold")] ;;
  method "ax1" "set_aspect" [Str "equal"] [] ;;
  method "ax1" "set_xlim" [Int 0; Int 36] [] ;;
  method "ax1" "set_ylim" [Int 0; Int 36] [] ;;
  method "ax1" "set_xlabel" [Str "Distance (km)"] [("fontsize", Int 10)] ;;
  method "ax1" "set_ylabel" [Str "Distance (km)"] [("fontsize", Int 10)] ;;
  "l1_rect" ::= Rectangle [Pair (Int 0) (Int 0); Int 36; Int 36]
    [("linewidth", Int 3); ("edgecolor", Str "darkblue");
     ("facecolor", Str "lightblue"); ("alpha", Flt 0.3)] ;;
  add_patch "ax1" "l1_rect" ;;
  method "ax1" "text" [Int 18; Flt 37.5; Str "L1 Tile: 36 km × 36 km"]
    [("ha", Str "center"); ("fontsize", Int 11); ("fontweight", Str "bold");
     ("color", Str "darkblue")] ;;
  method "ax1" "text" [Int 18; Int (-2); Str "600×600 pixels @ 60m/px"]
    [("ha", Str "center"); ("fontsize", Int 9); ("style", Str "italic");
     ("color", Str "darkblue")] ;;
  for_ (PVar "i") (range 6) (
    for_ (PVar "j") (range 6) (
      i <- get_int "i" ;;
      j <- get_int "j" ;;
      unpack (PTuple [PVar "x"; PVar "y"]) (Pair (Int (i * 6)) (Int (j * 6))) ;;
      x <- get "x" ;;
      y <- get "y" ;;
      "l2_rect" ::= Rectangle [Pair x y; Int 6; Int 6]
        [("linewidth", Flt 0.8); ("edgecolor", Str "darkgreen");
         ("facecolor", Str "lightgreen"); ("alpha", Flt 0.2)] ;;
      add_patch "ax1" "l2_rect")) ;;
  "highlight_rect" ::= Rectangle [Pair (Int 12) (Int 18); Int 6; Int 6]
    [("linewidth", Int 2); ("edgecolor", Str "red");
     ("facecolor", Str "yellow"); ("alpha", Flt 0.4)] ;;
  add_patch "ax1" "highlight_rect" ;;
  method "ax1" "text" [Int 15; Int 21; Str "L2"]
    [("ha", Str "center"); ("va", Str "center"); ("fontsize", Int 9);
     ("fontweight", Str "bold"); ("color", Str "darkred")] ;;
  method "ax1" "text" [Int 3; Int 33; Str "L2 tiles: 6 km × 6 km"]
    [("fontsize", Int 9); ("color", Str "darkgreen")] ;;
  method "ax1" "text" [Int 3; Int 31; Str "600×600 px @ 10m/px"]
    [("fontsize", Int 8); ("style", Str "italic"); ("color", Str "darkgreen")] ;;
  method "ax1" "annotate" [Str ("6 × 6 = 36 L2 tiles" ++ nl ++ "per L1 tile")]
    [("xy", Pair (Int 30) (Int 3)); ("xytext", Pair (Int 28) (Int 8));
     ("fontsize", Int 9); ("ha", Str "center");
     ("bbox", dict [("boxstyle", Str "round"); ("fc", Str "wheat")]);
     ("arrowprops", dict [("arrowstyle", Str "->"); ("lw", Flt 1.5)])] ;;
  method "ax1" "grid" [VBool true] [("alpha", Flt 0.2)].

(** Subplot 2: tile indexing example (lines 67-104). *)
Definition panel2 : M unit :=
  "ax2" ::= plt_subplot 2 3 2 ;;
  method "ax2" "set_title" [Str "Tile Index System"]
    [("fontsize", Int 12); ("fontweight", Str "bold")] ;;
  method "ax2" "set_aspect" [Str "equal"] [] ;;
  method "ax2" "set_xlim" [Flt (-0.5); Flt 6.5] [] ;;
  method "ax2" "set_ylim" [Flt (-0.5); Flt 6.5] [] ;;
  method "ax2" "set_xlabel" [Str "Column Index"] [("fontsize", Int 10)] ;;
  method "ax2" "set_ylabel" [Str "Row Index"] [("fontsize", Int 10)] ;;
  "colors" ::= (ts <- np_linspace 0 1 36 ;; cm_viridis ts) ;;
  assign "idx" (Int 0) ;;
  for_ (PVar "row") (range 6) (
    for_ (PVar "col") (range 6) (
      col <- get "col" ;;
      row <- get "row" ;;
      idx <- get_int "idx" ;;
      c <- subscript "colors" idx ;;
      "rect" ::= Rectangle [Pair col row; Int 1; Int 1]
        [("linewidth", Int 1); ("edgecolor", Str "black");
         ("facecolor", c); ("alpha", Flt 0.5)] ;;
      add_patch "ax2" "rect" ;;
      col <- get_int "col" ;;
      row <- get_int "row" ;;
      method "ax2" "text"
        [Flt (float_of_int col + 0.5); Flt (float_of_int row + 0.5);
         Str (str_int col ++ "," ++ str_int row)]
        [("ha", Str "center"); ("va", Str "center"); ("fontsize", Int 7);
         ("fontweight", Str "bold")] ;;
      idx <- get_int "idx" ;;
      assign "idx" (Int (idx + 1)))) ;;
  assign "highlight_cols" (VList [Int 2; Int 3]) ;;
  assign "highlight_rows" (VList [Int 3; Int 4]) ;;
  for_in (PVar "col") "highlight_cols" (
    for_in (PVar "row") "highlight_rows" (
      col <- get "col" ;;
      row <- get "row" ;;
      "rect" ::= Rectangle [Pair col row; Int 1; Int 1]
        [("linewidth", Flt 2.5); ("edgecolor", Str "red");
         ("facecolor", Str "none")] ;;
      add_patch "ax2" "rect")) ;;
  method "ax2" "text" [Flt 3.3; Flt 6.7; Str "Example: L2 tiles (2-3, 3-4)"]
    [("fontsize", Int 9); ("ha", Str "center");
     ("bbox", dict [("boxstyle", Str "round"); ("fc", Str "yellow");
                    ("alpha", Flt 0.7)])] ;;
  method "ax2" "text" [Flt 3.3; Int (-1); Str "→ Parent L1: col=0, row=0"]
    [("fontsize", Int 9); ("ha", Str "center"); ("style", Str "italic");
     ("color", Str "darkred")] ;;
  method "ax2" "set_xticks" [VList (range 7)] [] ;;
  method "ax2" "set_yticks" [VList (range 7)] [] ;;
  method "ax2" "grid" [VBool true] [("alpha", Flt 0.3)].

(** Subplot 3: tile ID format (lines 109-142). *)
Definition panel3 : M unit :=
  "ax3" ::= plt_subplot 2 3 3 ;;
  method "ax3" "axis" [Str "off"] [] ;;
  method "ax3" "set_title" [Str "Tile Identification Format"]
    [("fontsize", Int 12); ("fontweight", Str "bold")] ;;
  assign "y_pos" (Flt 0.85) ;;
  y_pos <- get "y_pos" ;;
  method "ax3" "text" [Flt 0.5; y_pos; Str "43S_L1_0006_0114"]
    [("ha", Str "center"); ("fontsize", Int 18); ("fontweight", Str "bold");
     ("family", Str "monospace");
     ("bbox", dict [("boxstyle", Str "round"); ("fc", Str "lightblue");
                    ("ec", Str "darkblue"); ("lw", Int 2)])] ;;
  assign "y_pos" (Flt 0.65) ;;
  assign "components" (VList [
    VTuple [Str "43S"; Str "UTM Zone"; Str "Zone 43, Southern Hemisphere"];
    VTuple [Str "L1"; Str "Grid Level"; Str "Level 1 (36km tiles)"];
    VTuple [Str "0006"; Str "Column"; Str "Column index from origin"];
    VTuple [Str "0114"; Str "Row"; Str "Row index from origin"]]) ;;
  for_enumerate (PTuple [PVar "i"; PTuple [PVar "part"; PVar "label"; PVar "desc"]])
    "components" (
      y_pos <- get_float "y_pos" ;;
      i <- get_int "i" ;;
      assign "y" (Flt (y_pos - float_of_int i * 0.15)) ;;
      y <- get "y" ;;
      part <- get "part" ;;
      method "ax3" "text" [Flt 0.15; y; part]
        [("fontsize", Int 14); ("fontweight", Str "bold");
         ("family", Str "monospace");
         ("bbox", dict [("boxstyle", Str "round"); ("fc", Str "wheat");
                        ("ec", Str "black")])] ;;
      y <- get "y" ;;
      label <- get_str "label" ;;
      method "ax3" "text" [Flt 0.35; y; Str ("← " ++ label)]
        [("fontsize", Int 11); ("va", Str "center")] ;;
      y <- get_float "y" ;;
      desc <- get "desc" ;;
      method "ax3" "text" [Flt 0.35; Flt (y - 0.03); desc]
        [("fontsize", Int 8); ("style", Str "italic"); ("va", Str "top");
         ("color", Str "gray")]) ;;
  method "ax3" "text" [Flt 0.5; Flt 0.05; Str "Example tile contains point at:"]
    [("ha", Str "center"); ("fontsize", Int 10); ("fontweight", Str "bold")] ;;
  method "ax3" "text" [Flt 0.5; Flt (-0.02); Str "UTM: 399,338 E, 4,126,677 N"]
    [("ha", Str "center"); ("fontsize", Int 9); ("family", Str "monospace")] ;;
  method "ax3" "text" [Flt 0.5; Flt (-0.08); Str "Lon/Lat: 73.5°E, 53.0°S"]
    [("ha", Str "center"); ("fontsize", Int 9); ("family", Str "monospace")].

(** Subplot 4: UTM zone coverage (lines 147-196). *)
Definition panel4 : M unit :=
  "ax4" ::= plt_subplot 2 3 4 ;;
  method "ax4" "set_title" [Str "UTM Zone Coverage (AAT)"]
    [("fontsize", Int 12); ("fontweight", Str "bold")] ;;
  method "ax4" "set_xlabel" [Str "Longitude (°E)"] [("fontsize", Int 10)] ;;
  method "ax4" "set_ylabel" [Str "Latitude (°S)"] [("fontsize", Int 10)] ;;
  method "ax4" "set_xlim" [Int 40; Int 165] [] ;;
  method "ax4" "set_ylim" [Int (-72); Int (-48)] [] ;;
  assign "zones" (VList (range_from 42 59)) ;;
  for_in (PVar "z") "zones" (
    z <- get_int "z" ;;
    assign "lon_min" (Int (-183 + z * 6)) ;;
    lon_min <- get_int "lon_min" ;;
    assign "lon_max" (Int (lon_min + 6)) ;;
    lon_min <- get_int "lon_min" ;;
    lon_max <- get_int "lon_max" ;;
    if ((44 <=? lon_min) && (lon_min <=? 160))
       || ((44 <=? lon_max) && (lon_max <=? 160))
    then
      z <- get_int "z" ;;
      assign "color" (Str (if z mod 2 =? 0 then "lightblue" else "lightgreen")) ;;
      lon_min <- get_int "lon_min" ;;
      color <- get "color" ;;
      "rect" ::= Rectangle
        [Pair (Int (Z.max lon_min 40)) (Int (-70));
         Int (Z.min 6 (165 - Z.max lon_min 40)); Int 20]
        [("facecolor", color); ("edgecolor", Str "black");
         ("linewidth", Flt 0.5); ("alpha", Flt 0.4)] ;;
      add_patch "ax4" "rect" ;;
      lon_min <- get_int "lon_min" ;;
      if (44 <=? lon_min + 3) && (lon_min + 3 <=? 160)
      then
        z <- get_int "z" ;;
        method "ax4" "text" [Int (lon_min + 3); Int (-71); Str (str_int z ++ "S")]
          [("ha", Str "center"); ("fontsize", Int 8); ("fontweight", Str "bold")]
      else ret tt
    else ret tt) ;;
  assign "locations" (VList [
    VTuple [Flt 73.5; Flt (-53.0); Str "Heard Is."; Str "red"];
    VTuple [Flt 158.85; Flt (-54.6); Str "Macquarie Is."; Str "red"];
    VTuple [Flt 77.97; Flt (-68.58); Str "Davis Stn"; Str "blue"]]) ;;
  for_in (PTuple [PVar "lon"; PVar "lat"; PVar "name"; PVar "color"]) "locations" (
    lon <- get "lon" ;;
    lat <- get "lat" ;;
    color <- get "color" ;;
    method "ax4" "plot" [lon; lat; Str "o"]
      [("color", color); ("markersize", Int 8); ("markeredgecolor", Str "black")] ;;
    lon <- get "lon" ;;
    lat <- get_float "lat" ;;
    name <- get "name" ;;
    method "ax4" "text" [lon; Flt (lat - 1.5); name]
      [("ha", Str "center"); ("fontsize", Int 8);
       ("bbox", dict [("boxstyle", Str "round"); ("fc", Str "white");
                      ("alpha", Flt 0.8)])]) ;;
  method "ax4" "axvline" [Int 44]
    [("color", Str "darkred"); ("linewidth", Int 2); ("linestyle", Str "--");
     ("alpha", Flt 0.7); ("label", Str "AAT Boundaries")] ;;
  method "ax4" "axvline" [Int 160]
    [("color", Str "darkred"); ("linewidth", Int 2); ("linestyle", Str "--");
     ("alpha", Flt 0.7)] ;;
  method "ax4" "axhline" [Int (-70)]
    [("color", Str "orange"); ("linewidth", Int 2); ("linestyle", Str ":");
     ("alpha", Flt 0.7); ("label", Str "UTM Limit (~70°S)")] ;;
  method "ax4" "grid" [VBool true] [("alpha", Flt 0.3)] ;;
  method "ax4" "legend" [] [("loc", Str "upper right"); ("fontsize", Int 8)].

(** Subplot 5: resolution comparison (lines 201-240). *)
Definition panel5 : M unit :=
  "ax5" ::= plt_subplot 2 3 5 ;;
  method "ax5" "set_title" [Str "Resolution Levels"]
    [("fontsize", Int 12); ("fontweight", Str "bold")] ;;
  method "ax5" "axis" [Str "off"] [] ;;
  assign "levels" (VList [
    VTuple [Str "L1"; Str "60 m/pixel"; Str "36 km × 36 km"; Str "600 × 600 px";
            Str ("Regional overview" ++ nl ++ "Broad coverage"); Str "lightblue"];
    VTuple [Str "L2"; Str "10 m/pixel"; Str "6 km × 6 km"; Str "600 × 600 px";
            Str ("Detailed analysis" ++ nl ++ "High resolution"); Str "lightgreen"]]) ;;
  for_enumerate
    (PTuple [PVar "i"; PTuple [PVar "level"; PVar "res"; PVar "size";
                               PVar "dims"; PVar "use"; PVar "color"]])
    "levels" (
      i <- get_int "i" ;;
      assign "y" (Flt (0.7 - float_of_int i * 0.4)) ;;
      y <- get_float "y" ;;
      color <- get "color" ;;
      tr <- attribute "ax5" "transAxes" ;;
      "rect" ::= FancyBboxPatch [Pair (Flt 0.05) (Flt (y - 0.15)); Flt 0.9; Flt 0.25]
        [("boxstyle", Str "round,pad=0.02"); ("facecolor", color);
         ("edgecolor", Str "black"); ("linewidth", Int 2); ("alpha", Flt 0.5);
         ("transform", tr)] ;;
      add_patch "ax5" "rect" ;;
      y <- get_float "y" ;;
      level <- get "level" ;;
      tr <- attribute "ax5" "transAxes" ;;
      method "ax5" "text" [Flt 0.15; Flt (y + 0.05); level]
        [("fontsize", Int 20); ("fontweight", Str "bold"); ("transform", tr)] ;;
      y <- get_float "y" ;;
      res <- get_str "res" ;;
      tr <- attribute "ax5" "transAxes" ;;
      method "ax5" "text" [Flt 0.5; Flt (y + 0.05); Str res]
        [("fontsize", Int 14); ("fontweight", Str "bold"); ("transform", tr)] ;;
      y <- get_float "y" ;;
      size <- get_str "size" ;;
      tr <- attribute "ax5" "transAxes" ;;
      method "ax5" "text" [Flt 0.5; Flt (y - 0.02); Str size]
        [("fontsize", Int 11); ("transform", tr)] ;;
      y <- get_float "y" ;;
      dims <- get_str "dims" ;;
      tr <- attribute "ax5" "transAxes" ;;
      method "ax5" "text" [Flt 0.5; Flt (y - 0.08); Str dims]
        [("fontsize", Int 10); ("style", Str "italic"); ("transform", tr);
         ("color", Str "gray")] ;;
      y <- get "y" ;;
      use <- get "use" ;;
      tr <- attribute "ax5" "transAxes" ;;
      method "ax5" "text" [Flt 0.88; y; use]
        [("fontsize", Int 9); ("ha", Str "right"); ("va", Str "center");
         ("transform", tr); ("style", Str "italic")]) ;;
  tr <- attribute "ax5" "transAxes" ;;
  method "ax5" "text"
    [Flt 0.5; Flt 0.15; Str "Same pixel count per tile → Same display size"]
    [("ha", Str "center"); ("fontsize", Int 10); ("fontweight", Str "bold");
     ("style", Str "italic"); ("transform", tr);
     ("bbox", dict [("boxstyle", Str "round"); ("fc", Str "yellow");
                    ("alpha", Flt 0.5)])].

(** [line.startswith(p)].  Strings are held as their UTF-8 bytes; one
    string starts with another exactly when its bytes do. *)
Definition startswith (line p : string) : bool := String.prefix p line.

(** Subplot 6: design principles (lines 245-282). *)
Definition panel6 : M unit :=
  "ax6" ::= plt_subplot 2 3 6 ;;
  method "ax6" "set_title" [Str "Design Principles"]
    [("fontsize", Int 12); ("fontweight", Str "bold")] ;;
  method "ax6" "axis" [Str "off"] [] ;;
  assign "principles" (VList [
    Str "✓ Consistent Coverage";
    Str "  • Edge-to-edge tiling";
    Str "  • No gaps or overlaps within zones";
    Str "";
    Str "✓ Clean Nesting";
    Str "  • 6×6 L2 tiles per L1 tile";
    Str "  • Simple parent-child relationships";
    Str "";
    Str "✓ Sentinel-2 Alignment";
    Str "  • Compatible grid origins";
    Str "  • Integration with satellite data";
    Str "";
    Str "✓ Human-Viewable";
    Str "  • 600×600 pixel images";
    Str "  • Practical file sizes";
    Str "";
    Str "✓ Zone-Based";
    Str "  • Minimal distortion per zone";
    Str "  • Standard UTM projections"]) ;;
  assign "y" (Flt 0.95) ;;
  for_in (PVar "line") "principles" (
    line <- get_str "line" ;;
    (if startswith line "✓" then
       y <- get "y" ;;
       tr <- attribute "ax6" "transAxes" ;;
       method "ax6" "text" [Flt 0.05; y; Str line]
         [("fontsize", Int 11); ("fontweight", Str "bold"); ("transform", tr);
          ("color", Str "darkgreen")]
     else if startswith line "  •" then
       y <- get "y" ;;
       tr <- attribute "ax6" "transAxes" ;;
       method "ax6" "text" [Flt 0.1; y; Str line]
         [("fontsize", Int 9); ("transform", tr); ("color", Str "darkblue")]
     else
       y <- get "y" ;;
       tr <- attribute "ax6" "transAxes" ;;
       method "ax6" "text" [Flt 0.05; y; Str line]
         [("fontsize", Int 9); ("transform", tr)]) ;;
    y <- get_float "y" ;;
    assign "y" (Flt (y - 0.05))).

Definition overview_path : string := "/mnt/user-data/outputs/grid_system_overview.png".
Definition detail_path : string := "/mnt/user-data/outputs/grid_nesting_detail.png".

(** Lines 284-287. *)
Definition save_overview : M unit :=
  plt "tight_layout" [] [] ;;
  plt "savefig" [Str overview_path]
    [("dpi", Int 300); ("bbox_inches", Str "tight"); ("facecolor", Str "white")] ;;
  print "Grid system overview diagram saved!".

(** The first figure (lines 13-287). *)
Definition overview : M unit :=
  open_overview ;; panel1 ;; panel2 ;; panel3 ;; panel4 ;; panel5 ;; panel6 ;;
  save_overview.

Definition info_text : string :=
  "L1 Tile:
• 36,000 m × 36,000 m
• 600 × 600 pixels
• 60 m per pixel

L2 Tiles (each):
• 6,000 m × 6,000 m  
• 600 × 600 pixels
• 10 m per pixel

Nesting: 6 × 6 = 36 tiles".

(** The second figure, up to its last drawing call (lines 290-354). *)
Definition detail_drawing : M unit :=
  (v <- plt_subplots 1 1 [("figsize", Pair (Int 10) (Int 10))] ;;
   unpack (PTuple [PVar "fig2"; PVar "ax"]) v) ;;
  method "ax" "set_title"
    [Str ("L1/L2 Tile Nesting Detail" ++ nl ++ "(One L1 tile = 6×6 L2 tiles)")]
    [("fontsize", Int 14); ("fontweight", Str "bold"); ("pad", Int 20)] ;;
  method "ax" "set_aspect" [Str "equal"] [] ;;
  method "ax" "set_xlim" [Int (-1); Int 37] [] ;;
  method "ax" "set_ylim" [Int (-1); Int 37] [] ;;
  method "ax" "set_xlabel" [Str "Distance from origin (km)"] [("fontsize", Int 11)] ;;
  method "ax" "set_ylabel" [Str "Distance from origin (km)"] [("fontsize", Int 11)] ;;
  "l1_outer" ::= Rectangle [Pair (Int 0) (Int 0); Int 36; Int 36]
    [("linewidth", Int 4); ("edgecolor", Str "darkblue");
     ("facecolor", Str "none"); ("linestyle", Str "-")] ;;
  add_patch "ax" "l1_outer" ;;
  method "ax" "text" [Flt (-0.5); Int 18; Str ("L1 Tile" ++ nl ++ "36 km")]
    [("ha", Str "right"); ("va", Str "center"); ("fontsize", Int 12);
     ("fontweight", Str "bold"); ("color", Str "darkblue")] ;;
  assign "colors_2d"
    (VList (repeat_list
              [VList (repeat_list [Str "white"; Str "lightgray"] 3)] 3)) ;;
  for_ (PVar "i") (range 6) (
    for_ (PVar "j") (range 6) (
      i <- get_int "i" ;;
      j <- get_int "j" ;;
      unpack (PTuple [PVar "x"; PVar "y"]) (Pair (Int (i * 6)) (Int (j * 6))) ;;
      i <- get_int "i" ;;
      j <- get_int "j" ;;
      assign "color" (Str (if (i + j) mod 2 =? 0 then "white" else "lightgray")) ;;
      x <- get "x" ;;
      y <- get "y" ;;
      color <- get "color" ;;
      "l2_rect" ::= Rectangle [Pair x y; Int 6; Int 6]
        [("linewidth", Flt 1.5); ("edgecolor", Str "darkgreen");
         ("facecolor", color); ("alpha", Flt 0.5)] ;;
      add_patch "ax" "l2_rect" ;;
      x <- get_int "x" ;;
      y <- get_int "y" ;;
      i <- get_int "i" ;;
      j <- get_int "j" ;;
      method "ax" "text"
        [Int (x + 3); Int (y + 3);
         Str ("L2" ++ nl ++ "(" ++ str_int i ++ "," ++ str_int j ++ ")")]
        [("ha", Str "center"); ("va", Str "center"); ("fontsize", Int 8);
         ("color", Str "darkgreen"); ("fontweight", Str "bold")])) ;;
  method "ax" "annotate" [Str ""]
    [("xy", Pair (Int 0) (Flt (-0.5))); ("xytext", Pair (Int 36) (Flt (-0.5)));
     ("arrowprops", dict [("arrowstyle", Str "<->"); ("lw", Int 2);
                          ("color", Str "darkblue")])] ;;
  method "ax" "text" [Int 18; Flt (-0.8); Str "36 km (36,000 m)"]
    [("ha", Str "center"); ("fontsize", Int 10); ("fontweight", Str "bold");
     ("color", Str "darkblue")] ;;
  method "ax" "annotate" [Str ""]
    [("xy", Pair (Int 0) (Int 0)); ("xytext", Pair (Int 6) (Int 0));
     ("arrowprops", dict [("arrowstyle", Str "<->"); ("lw", Int 2);
                          ("color", Str "darkgreen")])] ;;
  method "ax" "text" [Int 3; Flt (-0.3); Str "6 km"]
    [("ha", Str "center"); ("fontsize", Int 9); ("fontweight", Str "bold");
     ("color", Str "darkgreen")] ;;
  for_ (PVar "i") (range 7) (
    i <- get_int "i" ;;
    method "ax" "axvline" [Int (i * 6)]
      [("color", Str "darkgreen"); ("linewidth", Flt 1.5); ("alpha", Flt 0.8)] ;;
    i <- get_int "i" ;;
    method "ax" "axhline" [Int (i * 6)]
      [("color", Str "darkgreen"); ("linewidth", Flt 1.5); ("alpha", Flt 0.8)]) ;;
  assign "info_text" (Str info_text) ;;
  info <- get "info_text" ;;
  method "ax" "text" [Flt 37.5; Int 18; info]
    [("ha", Str "left"); ("va", Str "center"); ("fontsize", Int 10);
     ("bbox", dict [("boxstyle", Str "round"); ("facecolor", Str "wheat");
                    ("edgecolor", Str "black"); ("linewidth", Int 2);
                    ("pad", Int 10)]);
     ("family", Str "monospace")].

(** Lines 356-359. *)
Definition save_detail : M unit :=
  plt "tight_layout" [] [] ;;
  plt "savefig" [Str detail_path]
    [("dpi", Int 300); ("bbox_inches", Str "tight"); ("facecolor", Str "white")] ;;
  print "Grid nesting detail diagram saved!".

(** Lines 361-363. *)
Definition report : M unit :=
  print (nl ++ "Diagrams created successfully!") ;;
  print "- grid_system_overview.png: Complete system overview" ;;
  print "- grid_nesting_detail.png: Detailed view of tile nesting".

Definition detail : M unit := detail_drawing ;; save_detail.

(** The whole script. *)
Definition script : M unit := overview ;; detail ;; report.

(** A run starts with no globals and no calls made. *)
Definition run (lib : library) : result unit := script lib initial.

(** * Exceptions are never caught

    The monad has no handler, so a run under any library is the run under
    the quiet one, cut at the first call that raises.  [replay] feeds a
    planned list of calls (oldest first) to the library, given the calls
    [h] already made (newest first). *)

Fixpoint replay (lib : library) (h : list call) (l : list call)
  : list call * option (call * string) :=
  match l with
  | [] => (h, None)
  | c :: l' =>
      match raises lib h c with
      | Some e => (h, Some (c, e))
      | None => replay lib (c :: h) l'
      end
  end.

Definition uniform {A} (m : M A) : Prop :=
  forall lib s, exists l,
    trace (state_of (m (quiet lib) s)) = (rev l ++ trace s)%list /\
    match replay lib (trace s) l with
    | (_, None) => m lib s = m (quiet lib) s
    | (h, Some (c, e)) =>
        exists s', m lib s = Exc (LibraryError c e) s' /\ trace s' = h
    end.

(** Statements that call no library: same result under every library,
    trace untouched. *)
Definition silent {A} (m : M A) : Prop :=
  forall lib s,
    m lib s = m (quiet lib) s /\ trace (state_of (m lib s)) = trace s.

Lemma replay_app lib l1 : forall h l2,
  replay lib h (l1 ++ l2) =
  match replay lib h l1 with
  | (h', None) => replay lib h' l2
  | r => r
  end.
Proof.
  induction l1 as [|c l1 IH]; intros h l2; simpl.
  - reflexivity.
  - destruct (raises lib h c); [reflexivity | apply IH].
Qed.

Lemma replay_passed lib l : forall h h',
  replay lib h l = (h', None) -> h' = (rev l ++ h)%list.
Proof.
  induction l as [|c l IH]; intros h h' H; simpl in *.
  - now inversion H.
  - destruct (raises lib h c); [discriminate|].
    apply IH in H. now rewrite <- app_assoc.
Qed.

Lemma replay_raised lib l : forall h h' c e,
  replay lib h l = (h', Some (c, e)) ->
  exists pre post,
    l = (pre ++ c :: post)%list /\ h' = (rev pre ++ h)%list /\
    replay lib h pre = (h', None) /\ raises lib h' c = Some e.
Proof.
  induction l as [|c0 l IH]; intros h h' c e H; simpl in *.
  - discriminate.
  - destruct (raises lib h c0) eqn:E.
    + inversion H; subst. exists [], l. simpl. auto.
    + apply IH in H. destruct H as (pre & post & -> & -> & Hp & Hr).
      exists (c0 :: pre), post. simpl. rewrite E, <- app_assoc. auto.
Qed.

Lemma silent_uniform {A} (m : M A) : silent m -> uniform m.
Proof.
  intros H lib s. exists []. simpl. split.
  - apply (H (quiet lib) s).
  - apply (H lib s).
Qed.

Lemma uniform_invoke c : uniform (invoke c).
Proof.
  intros lib s. exists [c]. unfold invoke. simpl. split; [reflexivity|].
  destruct (raises lib (trace s) c); eauto.
Qed.

Lemma uniform_bind {A B} (m : M A) (k : A -> M B) :
  uniform m -> (forall a, uniform (k a)) -> uniform (bind m k).
Proof.
  intros Hm Hk lib s. destruct (Hm lib s) as (l1 & Ht1 & Hr1).
  unfold bind. destruct (m (quiet lib) s) as [a s1|e s1] eqn:Eq; simpl in Ht1.
  - destruct (Hk a lib s1) as (l2 & Ht2 & Hr2).
    exists (l1 ++ l2)%list. split.
    + rewrite Ht2, Ht1, rev_app_distr, app_assoc. reflexivity.
    + rewrite replay_app.
      destruct (replay lib (trace s) l1) as [h [[c e]|]] eqn:Er.
      * destruct Hr1 as (s' & -> & Hs'). eauto.
      * rewrite Hr1. apply replay_passed in Er. rewrite Er, <- Ht1. exact Hr2.
  - exists l1. split; [exact Ht1|].
    destruct (replay lib (trace s) l1) as [h [[c0 e0]|]].
    + destruct Hr1 as (s' & -> & Hs'). eauto.
    + now rewrite Hr1.
Qed.

Lemma silent_ret {A} (a : A) : silent (ret a).
Proof. split; reflexivity. Qed.

Lemma silent_throw {A} e : silent (@throw A e).
Proof. split; reflexivity. Qed.

Lemma silent_get x : silent (get x).
Proof.
  intros lib s. unfold get. destruct (lookup x (globals s)); split; reflexivity.
Qed.

Lemma silent_assign x v : silent (assign x v).
Proof. split; reflexivity. Qed.

Lemma silent_pyplot_now : silent pyplot_now.
Proof. split; reflexivity. Qed.

Lemma silent_bind {A B} (m : M A) (k : A -> M B) :
  silent m -> (forall a, silent (k a)) -> silent (bind m k).
Proof.
  intros Hm Hk lib s. unfold bind.
  destruct (Hm lib s) as [E T]. rewrite <- E in *.
  destruct (m lib s) as [a s1|e s1]; simpl in *.
  - destruct (Hk a lib s1) as [E' T']. now rewrite T', T.
  - auto.
Qed.

Lemma silent_get_int x : silent (get_int x).
Proof.
  apply silent_bind; [apply silent_get|].
  intros []; first [apply silent_ret | apply silent_throw].
Qed.

Lemma silent_get_float x : silent (get_float x).
Proof.
  apply silent_bind; [apply silent_get|].
  intros []; first [apply silent_ret | apply silent_throw].
Qed.

Lemma silent_get_str x : silent (get_str x).
Proof.
  apply silent_bind; [apply silent_get|].
  intros []; first [apply silent_ret | apply silent_throw].
Qed.

Lemma silent_get_ref x : silent (get_ref x).
Proof.
  apply silent_bind; [apply silent_get|].
  intros []; first [apply silent_ret | apply silent_throw].
Qed.

Lemma silent_assign_all bs : silent (assign_all bs).
Proof.
  induction bs as [|[x v] bs IH]; simpl.
  - apply silent_ret.
  - apply silent_bind; [apply silent_assign | intros _; exact IH].
Qed.

Lemma silent_unpack p v : silent (unpack p v).
Proof.
  unfold unpack. destruct (bindings p v);
    [apply silent_assign_all | apply silent_throw].
Qed.

Lemma silent_subscript x i : silent (subscript x i).
Proof.
  apply silent_bind; [apply silent_get|].
  intros []; try apply silent_throw;
    intros lib s; simpl;
    destruct ((0 <=? (if i <? 0 then i + Z.of_nat (List.length l) else i)) &&
              ((if i <? 0 then i + Z.of_nat (List.length l) else i)
                 <? Z.of_nat (List.length l)));
    try destruct (nth_error l _); split; reflexivity.
Qed.

Lemma silent_attribute x a : silent (attribute x a).
Proof.
  apply silent_bind; [apply silent_get_ref | intros h; apply silent_ret].
Qed.

Lemma silent_viridis ts :
  silent (fun lib s => Ok (VList (map (viridis lib) ts)) s).
Proof. split; reflexivity. Qed.

Create HintDb uniform.

#[export] Hint Resolve silent_ret silent_throw silent_get silent_assign
  silent_pyplot_now silent_get_int silent_get_float silent_get_str
  silent_get_ref silent_unpack silent_subscript silent_attribute
  silent_viridis : uniform.

(** One step of a syntax-directed proof that a statement is [uniform]. *)
Ltac uniform_step :=
  lazymatch goal with
  | |- uniform (bind _ _) => apply uniform_bind; [|intro]
  | |- uniform (invoke _) => apply uniform_invoke
  | |- uniform (if ?b then _ else _) => destruct b
  | |- uniform (match ?v with _ => _ end) => destruct v
  | |- uniform _ => solve [apply silent_uniform; auto with uniform]
  end.

Ltac uniform_tac := repeat uniform_step.

Lemma uniform_ret {A} (a : A) : uniform (ret a).
Proof. uniform_tac. Qed.

Lemma uniform_for p vs body : uniform body -> uniform (for_ p vs body).
Proof.
  intros Hb. induction vs as [|v vs IH]; simpl.
  - apply uniform_ret.
  - uniform_tac; assumption.
Qed.

Lemma uniform_for_in p x body : uniform body -> uniform (for_in p x body).
Proof.
  intros Hb. unfold for_in.
  uniform_tac; try apply uniform_for; try assumption; uniform_tac.
Qed.

Lemma uniform_for_enumerate p x body :
  uniform body -> uniform (for_enumerate p x body).
Proof.
  intros Hb. unfold for_enumerate.
  uniform_tac; try apply uniform_for; try assumption; uniform_tac.
Qed.

Lemma uniform_method x f args kw : uniform (method x f args kw).
Proof. unfold method. uniform_tac. Qed.

Lemma uniform_add_patch ax x : uniform (add_patch ax x).
Proof. unfold add_patch. uniform_tac. Qed.

Lemma uniform_plt f args kw : uniform (plt f args kw).
Proof. unfold plt. uniform_tac. Qed.

Lemma uniform_print s : uniform (print s).
Proof. unfold print. uniform_tac. Qed.

Lemma uniform_set_to x m : uniform m -> uniform (set_to x m).
Proof. intros H. unfold set_to. uniform_tac. exact H. Qed.

Lemma uniform_construct cls args kw : uniform (construct cls args kw).
Proof. unfold construct. uniform_tac. Qed.

Lemma uniform_plt_figure kw : uniform (plt_figure kw).
Proof. unfold plt_figure. uniform_tac. Qed.

Lemma uniform_plt_subplot r c k : uniform (plt_subplot r c k).
Proof. unfold plt_subplot. uniform_tac. Qed.

Lemma uniform_plt_subplots r c kw : uniform (plt_subplots r c kw).
Proof. unfold plt_subplots. uniform_tac. Qed.

Lemma uniform_np_linspace a b n : uniform (np_linspace a b n).
Proof. unfold np_linspace. uniform_tac. Qed.

Lemma uniform_cm_viridis ts : uniform (cm_viridis ts).
Proof. unfold cm_viridis. uniform_tac. Qed.

(** The same, over the statement forms of the script. *)
Ltac uniform_script :=
  repeat lazymatch goal with
  | |- uniform (bind _ _) => apply uniform_bind; [|intro]
  | |- uniform (invoke _) => apply uniform_invoke
  | |- uniform (method _ _ _ _) => apply uniform_method
  | |- uniform (add_patch _ _) => apply uniform_add_patch
  | |- uniform (plt _ _ _) => apply uniform_plt
  | |- uniform (print _) => apply uniform_print
  | |- uniform (Rectangle _ _) => apply uniform_construct
  | |- uniform (FancyBboxPatch _ _) => apply uniform_construct
  | |- uniform (plt_figure _) => apply uniform_plt_figure
  | |- uniform (plt_subplot _ _ _) => apply uniform_plt_subplot
  | |- uniform (plt_subplots _ _ _) => apply uniform_plt_subplots
  | |- uniform (np_linspace _ _ _) => apply uniform_np_linspace
  | |- uniform (cm_viridis _) => apply uniform_cm_viridis
  | |- uniform (set_to _ _) => apply uniform_set_to
  | |- uniform (for_ _ _ _) => apply uniform_for
  | |- uniform (for_in _ _ _) => apply uniform_for_in
  | |- uniform (for_enumerate _ _ _) => apply uniform_for_enumerate
  | |- uniform (if ?b then _ else _) => destruct b
  | |- uniform (ret _) => apply uniform_ret
  | |- uniform (get _) => apply silent_uniform, silent_get
  | |- uniform (get_int _) => apply silent_uniform, silent_get_int
  | |- uniform (get_float _) => apply silent_uniform, silent_get_float
  | |- uniform (get_str _) => apply silent_uniform, silent_get_str
  | |- uniform (assign _ _) => apply silent_uniform, silent_assign
  | |- uniform (unpack _ _) => apply silent_uniform, silent_unpack
  | |- uniform (subscript _ _) => apply silent_uniform, silent_subscript
  | |- uniform (attribute _ _) => apply silent_uniform, silent_attribute
  end.

Lemma uniform_open_overview : uniform open_overview.
Proof. unfold open_overview. uniform_script. Qed.

Lemma uniform_panel1 : uniform panel1.
Proof. unfold panel1. uniform_script. Qed.

Lemma uniform_panel2 : uniform panel2.
Proof. unfold panel2. uniform_script. Qed.

Lemma uniform_panel3 : uniform panel3.
Proof. unfold panel3. uniform_script. Qed.

Lemma uniform_panel4 : uniform panel4.
Proof. unfold panel4. uniform_script. Qed.

Lemma uniform_panel5 : uniform panel5.
Proof. unfold panel5. uniform_script. Qed.

Lemma uniform_panel6 : uniform panel6.
Proof. unfold panel6. uniform_script. Qed.

Lemma uniform_save_overview : uniform save_overview.
Proof. unfold save_overview. uniform_script. Qed.

Lemma uniform_detail_drawing : uniform detail_drawing.
Proof. unfold detail_drawing. uniform_script. Qed.

Lemma uniform_save_detail : uniform save_detail.
Proof. unfold save_detail. uniform_script. Qed.

Lemma uniform_report : uniform report.
Proof. unfold report. uniform_script. Qed.

Ltac uniform_part :=
  lazymatch goal with
  | |- uniform open_overview => exact uniform_open_overview
  | |- uniform panel1 => exact uniform_panel1
  | |- uniform panel2 => exact uniform_panel2
  | |- uniform panel3 => exact uniform_panel3
  | |- uniform panel4 => exact uniform_panel4
  | |- uniform panel5 => exact uniform_panel5
  | |- uniform panel6 => exact uniform_panel6
  | |- uniform save_overview => exact uniform_save_overview
  | |- uniform detail_drawing => exact uniform_detail_drawing
  | |- uniform save_detail => exact uniform_save_detail
  | |- uniform report => exact uniform_report
  | |- uniform (bind _ _) => apply uniform_bind; [|intro]
  end.

Lemma uniform_overview : uniform overview.
Proof. unfold overview. repeat uniform_part. Qed.

Lemma uniform_whole_script : uniform script.
Proof.
  unfold script, detail.
  apply uniform_bind; [exact uniform_overview | intro].
  repeat uniform_part.
Qed.

(** The calls the script makes when no call raises, oldest first. *)
Definition planned (lib : library) : list call :=
  rev (trace (state_of (run (quiet lib)))).
Definition final (lib : library) : state := state_of (run (quiet lib)).

Lemma uniform_fresh {A} (m : M A) :
  uniform m -> forall lib s, trace s = [] ->
  match replay lib [] (rev (trace (state_of (m (quiet lib) s)))) with
  | (_, None) => m lib s = m (quiet lib) s
  | (h, Some (c, e)) =>
      exists s', m lib s = Exc (LibraryError c e) s' /\ trace s' = h
  end.
Proof.
  intros U lib s E. destruct (U lib s) as (l & Ht & Hr).
  rewrite E in Ht, Hr. rewrite app_nil_r in Ht.
  rewrite Ht, rev_involutive. exact Hr.
Qed.

Lemma run_replay lib :
  match replay lib [] (planned lib) with
  | (_, None) => run lib = run (quiet lib)
  | (h, Some (c, e)) =>
      exists s', run lib = Exc (LibraryError c e) s' /\ trace s' = h
  end.
Proof.
  unfold planned, run.
  exact (uniform_fresh script uniform_whole_script lib initial eq_refl).
Qed.


Lemma run_quiet lib : run (quiet lib) = Ok tt (final lib).
Proof. vm_compute. reflexivity. Qed.

Lemma Ok_state {A} (a b : A) s t : Ok a s = Ok b t -> s = t.
Proof. intros H. now injection H. Qed.

Lemma completed_run lib s : run lib = Ok tt s -> s = final lib.
Proof.
  intros H. pose proof (run_replay lib) as R.
  destruct (replay lib [] (planned lib)) as [h [[c e]|]].
  - destruct R as (s' & E & _). rewrite E in H. discriminate H.
  - rewrite R, run_quiet in H. symmetry. exact (Ok_state _ _ _ _ H).
Qed.

(** * Reading a run

    What was drawn is read off the calls, oldest first. *)

Definition calls (s : state) : list call := rev (trace s).

Definition handle_eqb (a b : handle) : bool :=
  match a, b with
  | Figure n, Figure m => Nat.eqb n m
  | Axes n, Axes m => Nat.eqb n m
  | _, _ => false
  end.

(** The figure or axes a global holds. *)
Definition held (x : string) (s : state) : option handle :=
  match lookup x (globals s) with
  | Some (VRef h) => Some h
  | _ => None
  end.

(** The calls of method [f] on the object the global [x] holds. *)
Definition method_calls (x f : string) (s : state) : list call :=
  match held x s with
  | Some h =>
      filter (fun c =>
                match c_target c with
                | Method h' => handle_eqb h h' && String.eqb (c_func c) f
                | _ => false
                end) (calls s)
  | None => []
  end.

(** The patches added to the axes [x], in order. *)
Definition patches (x : string) (s : state) : list value :=
  flat_map c_args (method_calls x "add_patch" s).

Definition is_str (v : option value) (t : string) : bool :=
  match v with
  | Some (VStr u) => String.eqb u t
  | _ => false
  end.

Record rect : Type := Rect { rx : Z; ry : Z; rw : Z; rh : Z }.

(** The [Rectangle] patches with integer geometry and a given edge colour. *)
Definition rectangle_of (edge : string) (v : value) : option rect :=
  match v with
  | VObj cls [VTuple [VInt x; VInt y]; VInt w; VInt h] kw =>
      if String.eqb cls "Rectangle" && is_str (lookup "edgecolor" kw) edge
      then Some (Rect x y w h) else None
  | _ => None
  end.

Fixpoint choose {A B} (f : A -> option B) (l : list A) : list B :=
  match l with
  | [] => []
  | a :: l' =>
      match f a with
      | Some b => b :: choose f l'
      | None => choose f l'
      end
  end.

Definition rectangles (x edge : string) (s : state) : list rect :=
  choose (rectangle_of edge) (patches x s).

(** In both nesting diagrams the L1 tile is outlined in dark blue and the
    L2 tiles in dark green. *)
Definition outer_tiles (x : string) (s : state) : list rect :=
  rectangles x "darkblue" s.
Definition inner_tiles (x : string) (s : state) : list rect :=
  rectangles x "darkgreen" s.

Definition zrange (n : nat) : list Z := map Z.of_nat (seq 0 n).

(** The 6 x 6 grid of 6 x 6 cells, column by column. *)
Definition grid_cells : list rect :=
  flat_map (fun i => map (fun j => Rect (i * 6) (j * 6) 6 6) (zrange 6)) (zrange 6).

Definition inside (c o : rect) : Prop :=
  rx o <= rx c /\ rx c + rw c <= rx o + rw o /\
  ry o <= ry c /\ ry c + rh c <= ry o + rh o.

(** The point [(px / d, py / d)] lies in the half-open box of [c]. *)
Definition covers (c : rect) (d px py : Z) : Prop :=
  rx c * d <= px < (rx c + rw c) * d /\ ry c * d <= py < (ry c + rh c) * d.

(** [cells] tile [o]: each lies inside it, and every rational point of [o]
    is in exactly one of them. *)
Definition tiling (cells : list rect) (o : rect) : Prop :=
  NoDup cells /\
  (forall c, In c cells -> inside c o) /\
  (forall d px py, 0 < d -> covers o d px py ->
     exists c, In c cells /\ covers c d px py /\
               forall c', In c' cells -> covers c' d px py -> c' = c).

(** ** The nesting grids *)

Lemma outer_ax1 lib : outer_tiles "ax1" (final lib) = [Rect 0 0 36 36].
Proof. vm_compute. reflexivity. Qed.

Lemma inner_ax1 lib : inner_tiles "ax1" (final lib) = grid_cells.
Proof. vm_compute. reflexivity. Qed.

Lemma outer_ax lib : outer_tiles "ax" (final lib) = [Rect 0 0 36 36].
Proof. vm_compute. reflexivity. Qed.

Lemma inner_ax lib : inner_tiles "ax" (final lib) = grid_cells.
Proof. vm_compute. reflexivity. Qed.

Lemma in_zrange n k : In k (zrange n) <-> 0 <= k < Z.of_nat n.
Proof.
  unfold zrange. rewrite in_map_iff. split.
  - intros (m & <- & Hm). apply in_seq in Hm. lia.
  - intros H. exists (Z.to_nat k). split; [lia|]. apply in_seq. lia.
Qed.

Lemma in_grid_cells c :
  In c grid_cells <->
  exists i j, 0 <= i < 6 /\ 0 <= j < 6 /\ c = Rect (i * 6) (j * 6) 6 6.
Proof.
  unfold grid_cells. rewrite in_flat_map. split.
  - intros (i & Hi & Hc). apply in_map_iff in Hc. destruct Hc as (j & <- & Hj).
    apply in_zrange in Hi, Hj. exists i, j. simpl in *. repeat split; lia.
  - intros (i & j & Hi & Hj & ->). exists i. split.
    + apply in_zrange. simpl. lia.
    + apply in_map_iff. exists j. split; [reflexivity|].
      apply in_zrange. simpl. lia.
Qed.

Definition rect_eqb (a b : rect) : bool :=
  (rx a =? rx b) && (ry a =? ry b) && (rw a =? rw b) && (rh a =? rh b).

Lemma rect_eqb_refl a : rect_eqb a a = true.
Proof. unfold rect_eqb. now rewrite !Z.eqb_refl. Qed.

Fixpoint distinct (l : list rect) : bool :=
  match l with
  | [] => true
  | a :: l' => negb (existsb (rect_eqb a) l') && distinct l'
  end.

Lemma distinct_NoDup l : distinct l = true -> NoDup l.
Proof.
  induction l as [|a l IH]; simpl; intros H.
  - constructor.
  - apply andb_true_iff in H. destruct H as [Ha Hl].
    constructor; [|auto]. intros Hin.
    apply negb_true_iff in Ha.
    assert (E : existsb (rect_eqb a) l = true).
    { apply existsb_exists. exists a. split; [assumption | apply rect_eqb_refl]. }
    congruence.
Qed.

Lemma grid_cells_tiling : tiling grid_cells (Rect 0 0 36 36).
Proof.
  split; [|split].
  - apply distinct_NoDup. vm_compute. reflexivity.
  - intros c Hc. apply in_grid_cells in Hc.
    destruct Hc as (i & j & Hi & Hj & ->). unfold inside; cbn [rx ry rw rh]. lia.
  - intros d px py Hd [Hx Hy]. cbn [rx ry rw rh] in Hx, Hy.
    exists (Rect (px / (6 * d) * 6) (py / (6 * d) * 6) 6 6).
    assert (Hdx : 0 < 6 * d) by lia.
    pose proof (Z.div_mod px (6 * d) ltac:(lia)) as Ex.
    pose proof (Z.mod_pos_bound px (6 * d) Hdx) as Bx.
    pose proof (Z.div_mod py (6 * d) ltac:(lia)) as Ey.
    pose proof (Z.mod_pos_bound py (6 * d) Hdx) as By.
    assert (Hi : 0 <= px / (6 * d) < 6).
    { split; [apply Z.div_pos; lia | apply Z.div_lt_upper_bound; lia]. }
    assert (Hj : 0 <= py / (6 * d) < 6).
    { split; [apply Z.div_pos; lia | apply Z.div_lt_upper_bound; lia]. }
    split; [|split].
    + apply in_grid_cells. eauto.
    + unfold covers; cbn [rx ry rw rh]. nia.
    + intros c' Hc' [Hx' Hy']. apply in_grid_cells in Hc'.
      destruct Hc' as (i & j & Hi' & Hj' & ->). cbn [rx ry rw rh] in Hx', Hy'.
      assert (i = px / (6 * d)).
      { apply Z.div_unique with (r := px - 6 * d * i); nia. }
      assert (j = py / (6 * d)).
      { apply Z.div_unique with (r := py - 6 * d * j); nia. }
      subst. reflexivity.
Qed.

(** A library on which nothing raises, with a grey colormap; used to run
    the script on a concrete input. *)
Definition still : library :=
  {| raises := fun _ _ => None;
     viridis := fun t => VTuple [VFloat t; VFloat t; VFloat t; VFloat 1] |}.

Lemma run_still : run still = Ok tt (final still).
Proof. vm_compute. reflexivity. Qed.

Lemma grid_cells_length : List.length grid_cells = 36%nat.
Proof. reflexivity. Qed.

(** C2: in both nesting diagrams (subplot 1, the global [ax1], and the
    detail figure, the global [ax]) the outer tile is the one 36 x 36
    rectangle at the origin, the inner tiles are the 36 rectangles of size
    6 x 6 at [(i*6, j*6)], [i, j] in 0..5, so inner edge times the nesting
    factor 6 is the outer edge, every inner tile lies inside the outer one,
    and together they tile it exactly. *)
Theorem C2_inner_tiles_fill_outer_tile :
  forall lib s, run lib = Ok tt s ->
  forall ax, In ax ["ax1"; "ax"] ->
    outer_tiles ax s = [Rect 0 0 36 36] /\
    inner_tiles ax s = grid_cells /\
    List.length (inner_tiles ax s) = 36%nat /\
    (forall c o, In c (inner_tiles ax s) -> In o (outer_tiles ax s) ->
       rw c = 6 /\ rh c = 6 /\ rw c * 6 = rw o /\ rh c * 6 = rh o /\
       (exists i j, 0 <= i < 6 /\ 0 <= j < 6 /\ rx c = i * 6 /\ ry c = j * 6) /\
       inside c o) /\
    tiling (inner_tiles ax s) (Rect 0 0 36 36).
Proof.
  intros lib s H ax Hax. apply completed_run in H. subst s.
  assert (E : outer_tiles ax (final lib) = [Rect 0 0 36 36] /\
              inner_tiles ax (final lib) = grid_cells).
  { destruct Hax as [<-|[<-|[]]].
    - split; [apply outer_ax1 | apply inner_ax1].
    - split; [apply outer_ax | apply inner_ax]. }
  destruct E as [Eo Ei]. rewrite Eo, Ei.
  split; [reflexivity|]. split; [reflexivity|].
  split; [apply grid_cells_length|]. split; [|apply grid_cells_tiling].
  intros c o Hc [<-|[]].
  pose proof (proj1 (proj2 grid_cells_tiling) c Hc) as Hin.
  apply in_grid_cells in Hc. destruct Hc as (i & j & Hi & Hj & ->).
  cbn [rx ry rw rh]. repeat split; try lia; try apply Hin.
  exists i, j. repeat split; lia.
Qed.

Lemma C2_witness :
  run still = Ok tt (final still) /\
  tiling (inner_tiles "ax" (final still)) (Rect 0 0 36 36).
Proof.
  split; [vm_compute; reflexivity|].
  apply (C2_inner_tiles_fill_outer_tile still (final still));
    [vm_compute; reflexivity | right; left; reflexivity].
Defined.

(** ** Files written *)

(** The library entry points that write a file: pyplot's and a figure's
    [savefig], pyplot's [imsave], numpy's savers, and the builtin [open]. *)
Definition writes_file (c : call) : bool :=
  match c_target c with
  | Pyplot => String.eqb (c_func c) "savefig" || String.eqb (c_func c) "imsave"
  | Method (Figure _) => String.eqb (c_func c) "savefig"
  | Numpy =>
      existsb (String.eqb (c_func c)) ["save"; "savetxt"; "savez"; "tofile"]
  | Builtin => String.eqb (c_func c) "open"
  | _ => false
  end.

(** What follows the last dot of a file name. *)
Fixpoint extension (s : string) : option string :=
  match s with
  | EmptyString => None
  | String c s' =>
      match extension s' with
      | Some e => Some e
      | None => if Ascii.eqb c "."%char then Some s' else None
      end
  end.

(** [savefig] writes the format named by its [format] argument, else the
    one named by the extension of the file name. *)
Definition image_format (path : string) (kw : kwargs) : option string :=
  match lookup "format" kw with
  | Some (VStr f) => Some f
  | _ => extension path
  end.

Record saved : Type := Saved {
  s_path : string;
  s_format : option string;
  s_dpi : option value;
  s_facecolor : option value
}.

Definition saved_by (c : call) : option saved :=
  if writes_file c then
    match c_args c with
    | VStr p :: _ =>
        Some (Saved p (image_format p (c_kwargs c))
                    (lookup "dpi" (c_kwargs c))
                    (lookup "facecolor" (c_kwargs c)))
    | _ => Some (Saved "" None None None)
    end
  else None.

(** The files a run wrote, in order. *)
Definition files_written (s : state) : list saved :=
  choose saved_by (calls s).

Lemma files_written_final lib :
  files_written (final lib) =
  [Saved overview_path (Some "png") (Some (VInt 300)) (Some (VStr "white"));
   Saved detail_path (Some "png") (Some (VInt 300)) (Some (VStr "white"))].
Proof. vm_compute. reflexivity. Qed.

(** C1: a run that completes has written exactly two files, first
    /mnt/user-data/outputs/grid_system_overview.png and then
    /mnt/user-data/outputs/grid_nesting_detail.png, each a PNG saved with
    dpi=300 and facecolor='white'; no other call that writes a file was
    made. *)
Theorem C1_two_png_files :
  forall lib s, run lib = Ok tt s ->
    files_written s =
    [Saved "/mnt/user-data/outputs/grid_system_overview.png" (Some "png")
           (Some (VInt 300)) (Some (VStr "white"));
     Saved "/mnt/user-data/outputs/grid_nesting_detail.png" (Some "png")
           (Some (VInt 300)) (Some (VStr "white"))] /\
    List.length (filter writes_file (calls s)) = 2%nat.
Proof.
  intros lib s H. apply completed_run in H. subst s. split.
  - apply files_written_final.
  - vm_compute. reflexivity.
Qed.

Lemma C1_witness :
  run still = Ok tt (final still) /\
  List.length (files_written (final still)) = 2%nat.
Proof.
  split; [vm_compute; reflexivity|].
  destruct (C1_two_png_files still (final still)) as [E _];
    [vm_compute; reflexivity|].
  rewrite E. reflexivity.
Defined.

(** ** Panels *)

(** The figure that was current when [savefig(path)] was called. *)
Fixpoint figure_at_save (path : string) (p : pyplot) (cs : list call)
  : option nat :=
  match cs with
  | [] => None
  | c :: cs' =>
      if writes_file c && is_str (hd_error (c_args c)) path
      then current p
      else figure_at_save path (pyplot_step p c) cs'
  end.

Definition saved_figure (path : string) (s : state) : option nat :=
  figure_at_save path (Pyplot_state 0 0 None []) (calls s).

(** The axes of figure [f], in creation order. *)
Definition axes_in (f : nat) (s : state) : list nat :=
  map fst (filter (fun af => Nat.eqb (snd af) f) (owner (pyplot_of (calls s)))).

(** The title set on axes [a]. *)
Definition title (a : nat) (s : state) : option value :=
  hd_error
    (flat_map (fun c =>
                 match c_target c with
                 | Method (Axes a') =>
                     if Nat.eqb a a' && String.eqb (c_func c) "set_title"
                     then firstn 1 (c_args c) else []
                 | _ => []
                 end) (calls s)).

(** The grid positions asked of [plt.subplot]. *)
Definition subplot_positions (s : state) : list (list value) :=
  choose (fun c =>
            match c_target c with
            | Pyplot => if String.eqb (c_func c) "subplot"
                        then Some (c_args c) else None
            | _ => None
            end) (calls s).

Definition outcome {A} (r : result A) : option exn :=
  match r with Ok _ _ => None | Exc e _ => Some e end.

(** What a statement did, as seen from outside: the calls on record and
    the exception it ended with, if any. *)
Definition observable {A} (r : result A) : list call * option exn :=
  (trace (state_of r), outcome r).

(** A statement whose calls and outcome do not depend on the globals (nor
    on the subscript log) it starts from. *)
Definition ignores_globals (m : M unit) : Prop :=
  forall lib g g' t u u',
    observable (m lib (State g t u)) = observable (m lib (State g' t u')).

Lemma uniform_observable {A} (m : M A) :
  uniform m -> forall lib s1 s2,
  trace s1 = trace s2 ->
  observable (m (quiet lib) s1) = observable (m (quiet lib) s2) ->
  observable (m lib s1) = observable (m lib s2).
Proof.
  intros U lib s1 s2 Et Eq.
  destruct (U lib s1) as (l1 & T1 & R1), (U lib s2) as (l2 & T2 & R2).
  unfold observable in Eq. injection Eq as Eq1 Eq2.
  assert (l1 = l2) as <-.
  { rewrite T1, T2, Et in Eq1. apply app_inv_tail in Eq1.
    rewrite <- (rev_involutive l1), Eq1. apply rev_involutive. }
  rewrite <- Et in R2.
  destruct (replay lib (trace s1) l1) as [h [[c e]|]].
  - destruct R1 as (s1' & -> & H1), R2 as (s2' & -> & H2).
    unfold observable; simpl. now rewrite H1, H2.
  - rewrite R1, R2. unfold observable. now rewrite Eq1, Eq2.
Qed.

Lemma quiet_panel1 lib g g' t u u' :
  observable (panel1 (quiet lib) (State g t u)) =
  observable (panel1 (quiet lib) (State g' t u')).
Proof. vm_compute. reflexivity. Qed.

Lemma quiet_panel2 lib g g' t u u' :
  observable (panel2 (quiet lib) (State g t u)) =
  observable (panel2 (quiet lib) (State g' t u')).
Proof. vm_compute. reflexivity. Qed.

Lemma quiet_panel3 lib g g' t u u' :
  observable (panel3 (quiet lib) (State g t u)) =
  observable (panel3 (quiet lib) (State g' t u')).
Proof. vm_compute. reflexivity. Qed.

Lemma quiet_panel4 lib g g' t u u' :
  observable (panel4 (quiet lib) (State g t u)) =
  observable (panel4 (quiet lib) (State g' t u')).
Proof. vm_compute. reflexivity. Qed.

Lemma quiet_panel5 lib g g' t u u' :
  observable (panel5 (quiet lib) (State g t u)) =
  observable (panel5 (quiet lib) (State g' t u')).
Proof. vm_compute. reflexivity. Qed.

Lemma quiet_panel6 lib g g' t u u' :
  observable (panel6 (quiet lib) (State g t u)) =
  observable (panel6 (quiet lib) (State g' t u')).
Proof. vm_compute. reflexivity. Qed.

Lemma panels_ignore_globals :
  ignores_globals panel1 /\ ignores_globals panel2 /\ ignores_globals panel3 /\
  ignores_globals panel4 /\ ignores_globals panel5 /\ ignores_globals panel6.
Proof.
  repeat split; intros lib g g' t u u'.
  - apply (uniform_observable _ uniform_panel1); [reflexivity | apply quiet_panel1].
  - apply (uniform_observable _ uniform_panel2); [reflexivity | apply quiet_panel2].
  - apply (uniform_observable _ uniform_panel3); [reflexivity | apply quiet_panel3].
  - apply (uniform_observable _ uniform_panel4); [reflexivity | apply quiet_panel4].
  - apply (uniform_observable _ uniform_panel5); [reflexivity | apply quiet_panel5].
  - apply (uniform_observable _ uniform_panel6); [reflexivity | apply quiet_panel6].
Qed.

Lemma overview_panels lib :
  saved_figure overview_path (final lib) = Some 0%nat /\
  axes_in 0 (final lib) = [0; 1; 2; 3; 4; 5]%nat /\
  map (fun x => held x (final lib)) ["ax1"; "ax2"; "ax3"; "ax4"; "ax5"; "ax6"] =
    map (fun a => Some (Axes a)) [0; 1; 2; 3; 4; 5]%nat /\
  map (fun a => title a (final lib)) [0; 1; 2; 3; 4; 5]%nat =
    map (fun t => Some (VStr t))
      ["Grid Hierarchy Concept"; "Tile Index System";
       "Tile Identification Format"; "UTM Zone Coverage (AAT)";
       "Resolution Levels"; "Design Principles"] /\
  subplot_positions (final lib) =
    map (fun k => [VInt 2; VInt 3; VInt k]) [1; 2; 3; 4; 5; 6].
Proof. vm_compute. repeat split. Qed.

(** ** The nesting-detail figure *)

(** Geometry of every [Rectangle] patch with integer coordinates. *)
Definition geometry_of (v : value) : option rect :=
  match v with
  | VObj cls [VTuple [VInt x; VInt y]; VInt w; VInt h] _ =>
      if String.eqb cls "Rectangle" then Some (Rect x y w h) else None
  | _ => None
  end.

(** Texts placed at integer coordinates on the axes [x]: position and
    string. *)
Definition cell_labels (x : string) (s : state) : list (Z * Z * string) :=
  choose (fun c =>
            match c_args c with
            | [VInt px; VInt py; VStr t] => Some (px, py, t)
            | _ => None
            end) (method_calls x "text" s).

(** Texts drawn in a box on the axes [x]: position and content. *)
Definition boxed_texts (x : string) (s : state) : list (list value) :=
  choose (fun c =>
            match lookup "bbox" (c_kwargs c) with
            | Some _ => Some (c_args c)
            | None => None
            end) (method_calls x "text" s).

(** The arrow style of each [annotate] call on the axes [x]. *)
Definition arrows (x : string) (s : state) : list (option value) :=
  map (fun c =>
         match lookup "arrowprops" (c_kwargs c) with
         | Some (VDict d) => lookup "arrowstyle" d
         | _ => None
         end) (method_calls x "annotate" s).

Definition label_of (i j : Z) : string :=
  "L2" ++ nl ++ "(" ++ str_int i ++ "," ++ str_int j ++ ")".

Lemma detail_figure lib :
  saved_figure detail_path (final lib) = Some 1%nat /\
  axes_in 1 (final lib) = [6%nat] /\
  held "ax" (final lib) = Some (Axes 6) /\
  choose geometry_of (patches "ax" (final lib)) = Rect 0 0 36 36 :: grid_cells /\
  cell_labels "ax" (final lib) =
    flat_map (fun i => map (fun j => (i * 6 + 3, j * 6 + 3, label_of i j))
                           (zrange 6)) (zrange 6) /\
  arrows "ax" (final lib) = [Some (VStr "<->"); Some (VStr "<->")] /\
  boxed_texts "ax" (final lib) = [[VFloat 37.5; VInt 18; VStr info_text]].
Proof. vm_compute. repeat split. Qed.

(** C4: the figure saved as the nesting detail has one axes, [ax].  Its
    patches are the outer 36 x 36 boundary followed by exactly the 36 cells
    of the 6 x 6 grid; the cell at [(i*6, j*6)] carries at its centre the
    label 'L2\n(i,j)'; there are two dimension arrows, both double-headed;
    and one boxed text, the info box at (37.5, 18). *)
Theorem C4_detail_figure_content :
  forall lib s, run lib = Ok tt s ->
    (exists f a, saved_figure "/mnt/user-data/outputs/grid_nesting_detail.png" s
                   = Some f /\
                 axes_in f s = [a] /\ held "ax" s = Some (Axes a)) /\
    choose geometry_of (patches "ax" s) = Rect 0 0 36 36 :: grid_cells /\
    outer_tiles "ax" s = [Rect 0 0 36 36] /\
    inner_tiles "ax" s = grid_cells /\
    List.length (inner_tiles "ax" s) = 36%nat /\
    cell_labels "ax" s =
      flat_map (fun i => map (fun j => (i * 6 + 3, j * 6 + 3, label_of i j))
                             (zrange 6)) (zrange 6) /\
    arrows "ax" s = [Some (VStr "<->"); Some (VStr "<->")] /\
    boxed_texts "ax" s = [[VFloat 37.5; VInt 18; VStr info_text]].
Proof.
  intros lib s H. apply completed_run in H. subst s.
  destruct (detail_figure lib) as (Hf & Ha & Hh & Hg & Hl & Hr & Hb).
  split; [exists 1%nat, 6%nat; auto|].
  split; [exact Hg|]. split; [apply outer_ax|].
  rewrite inner_ax. split; [reflexivity|]. split; [apply grid_cells_length|].
  split; [exact Hl|]. split; [exact Hr | exact Hb].
Qed.

Lemma C4_witness :
  run still = Ok tt (final still) /\
  List.length (inner_tiles "ax" (final still)) = 36%nat.
Proof.
  split; [vm_compute; reflexivity|].
  apply (C4_detail_figure_content still (final still)).
  vm_compute; reflexivity.
Defined.

(** Position and fill colour of each 6 x 6 cell drawn on the axes [x]. *)
Definition cell_fills (x : string) (s : state) : list (Z * Z * option value) :=
  choose (fun v =>
            match v with
            | VObj cls [VTuple [VInt px; VInt py]; VInt 6; VInt 6] kw =>
                if String.eqb cls "Rectangle"
                then Some (px, py, lookup "facecolor" kw) else None
            | _ => None
            end) (patches x s).

(** The fill colour of the cell whose lower-left corner is [(px, py)]. *)
Definition fill_at (x : string) (s : state) (px py : Z) : option value :=
  match find (fun c => (fst (fst c) =? px) && (snd (fst c) =? py))
             (cell_fills x s) with
  | Some (_, _, f) => f
  | None => None
  end.

Definition shade (i j : Z) : string :=
  if (i + j) mod 2 =? 0 then "white" else "lightgray".

Lemma cell_fills_detail lib :
  cell_fills "ax" (final lib) =
  flat_map (fun i => map (fun j => (i * 6, j * 6, Some (VStr (shade i j))))
                         (zrange 6)) (zrange 6).
Proof. vm_compute. reflexivity. Qed.

Lemma below_six i : 0 <= i < 6 -> In i [0; 1; 2; 3; 4; 5].
Proof. intros H. simpl. lia. Qed.

Lemma fill_at_detail lib i j :
  0 <= i < 6 -> 0 <= j < 6 ->
  fill_at "ax" (final lib) (i * 6) (j * 6) = Some (VStr (shade i j)).
Proof.
  intros Hi Hj. unfold fill_at. rewrite cell_fills_detail.
  apply below_six in Hi, Hj.
  repeat (destruct Hi as [<-|Hi]; [|]); try contradiction;
    repeat (destruct Hj as [<-|Hj]; [|]); try contradiction; reflexivity.
Qed.

Lemma shade_differs i j i' j' :
  Z.abs (i - i') + Z.abs (j - j') = 1 -> shade i j <> shade i' j'.
Proof.
  intros H. unfold shade.
  assert (P : (i + j) mod 2 <> (i' + j') mod 2).
  { pose proof (Z.mod_pos_bound (i + j) 2 ltac:(lia)).
    pose proof (Z.mod_pos_bound (i' + j') 2 ltac:(lia)).
    pose proof (Z.div_mod (i + j) 2 ltac:(lia)).
    pose proof (Z.div_mod (i' + j') 2 ltac:(lia)). lia. }
  pose proof (Z.mod_pos_bound (i + j) 2 ltac:(lia)).
  pose proof (Z.mod_pos_bound (i' + j') 2 ltac:(lia)).
  destruct ((i + j) mod 2 =? 0) eqn:E, ((i' + j') mod 2 =? 0) eqn:E';
    try discriminate;
    rewrite ?Z.eqb_eq, ?Z.eqb_neq in E, E'; lia.
Qed.

(** C5: in the nesting-detail figure the cell at [(i*6, j*6)], [i, j] in
    0..5, is filled white when [i + j] is even and lightgray when it is
    odd, so two cells that share an edge never have the same fill. *)
Theorem C5_alternating_shading :
  forall lib s, run lib = Ok tt s ->
  forall i j, 0 <= i < 6 -> 0 <= j < 6 ->
    fill_at "ax" s (i * 6) (j * 6) =
      Some (VStr (if (i + j) mod 2 =? 0 then "white" else "lightgray")) /\
    forall i' j', 0 <= i' < 6 -> 0 <= j' < 6 ->
      Z.abs (i - i') + Z.abs (j - j') = 1 ->
      fill_at "ax" s (i * 6) (j * 6) <> fill_at "ax" s (i' * 6) (j' * 6).
Proof.
  intros lib s H i j Hi Hj. apply completed_run in H. subst s.
  split; [apply fill_at_detail; assumption|].
  intros i' j' Hi' Hj' Hadj.
  rewrite !fill_at_detail by assumption.
  intros E. apply (shade_differs i j i' j' Hadj). congruence.
Qed.

Lemma C5_witness :
  run still = Ok tt (final still) /\ 0 <= 2 < 6 /\ 0 <= 3 < 6 /\
  fill_at "ax" (final still) (2 * 6) (3 * 6) = Some (VStr "lightgray").
Proof.
  split; [vm_compute; reflexivity|]. split; [lia|]. split; [lia|].
  apply (C5_alternating_shading still (final still)); [vm_compute; reflexivity | lia | lia].
Defined.

(** ** The tile-index panel *)

(** The unit cells drawn with a black edge on the axes [x]: position and
    fill colour. *)
Definition index_cells (x : string) (s : state) : list (Z * Z * option value) :=
  choose (fun v =>
            match v with
            | VObj cls [VTuple [VInt px; VInt py]; VInt 1; VInt 1] kw =>
                if String.eqb cls "Rectangle"
                   && is_str (lookup "edgecolor" kw) "black"
                then Some (px, py, lookup "facecolor" kw) else None
            | _ => None
            end) (patches x s).

(** Every text on the axes [x]: its three positional arguments. *)
Definition texts (x : string) (s : state) : list (list value) :=
  map c_args (method_calls x "text" s).

Definition colors_of (lib : library) : list value :=
  map (viridis lib) (linspace_samples 0 1 36).

Lemma index_panel lib :
  lookup "colors" (globals (final lib)) = Some (VList (colors_of lib)) /\
  rev (subscripts (final lib)) = zrange 36 /\
  lookup "idx" (globals (final lib)) = Some (VInt 36) /\
  index_cells "ax2" (final lib) =
    flat_map (fun row =>
                map (fun col =>
                       (col, row,
                        nth_error (colors_of lib) (Z.to_nat (row * 6 + col))))
                    (zrange 6)) (zrange 6) /\
  firstn 36 (texts "ax2" (final lib)) =
    flat_map (fun row =>
                map (fun col =>
                       [VFloat (float_of_int col + 0.5);
                        VFloat (float_of_int row + 0.5);
                        VStr (str_int col ++ "," ++ str_int row)])
                    (zrange 6)) (zrange 6).
Proof. vm_compute. repeat split. Qed.

Lemma colors_length lib : List.length (colors_of lib) = 36%nat.
Proof. unfold colors_of. rewrite length_map. reflexivity. Qed.

(** C9: [colors] has exactly 36 entries; the script subscripts it at
    0, 1, ..., 35, in that order and nowhere else, once for each of the
    36 cells, so every subscript is within bounds, and [idx] is 36
    afterwards; the cell at column [col] and row [row] takes
    [colors[row*6 + col]] and is labelled 'col,row'. *)
Theorem C9_color_index_in_bounds :
  forall lib s, run lib = Ok tt s ->
    (exists l, lookup "colors" (globals s) = Some (VList l) /\
               List.length l = 36%nat /\
               index_cells "ax2" s =
                 flat_map (fun row =>
                             map (fun col =>
                                    (col, row,
                                     nth_error l (Z.to_nat (row * 6 + col))))
                                 (zrange 6)) (zrange 6)) /\
    rev (subscripts s) = zrange 36 /\
    Forall (fun i => 0 <= i <= 35) (subscripts s) /\
    List.length (index_cells "ax2" s) = 36%nat /\
    lookup "idx" (globals s) = Some (VInt 36) /\
    firstn 36 (texts "ax2" s) =
      flat_map (fun row =>
                  map (fun col =>
                         [VFloat (float_of_int col + 0.5);
                          VFloat (float_of_int row + 0.5);
                          VStr (str_int col ++ "," ++ str_int row)])
                      (zrange 6)) (zrange 6).
Proof.
  intros lib s H. apply completed_run in H. subst s.
  destruct (index_panel lib) as (Hc & Hs & Hi & Hr & Ht).
  split; [exists (colors_of lib); auto using colors_length|].
  split; [exact Hs|]. split.
  - rewrite <- (rev_involutive (subscripts (final lib))), Hs.
    apply Forall_forall. intros i Hin.
    apply in_rev, in_zrange in Hin. lia.
  - split; [rewrite Hr; reflexivity|]. split; [exact Hi | exact Ht].
Qed.

Lemma C9_witness :
  run still = Ok tt (final still) /\
  lookup "idx" (globals (final still)) = Some (VInt 36).
Proof.
  split; [vm_compute; reflexivity|].
  apply (C9_color_index_in_bounds still (final still)).
  vm_compute; reflexivity.
Defined.

(** ** The UTM zone panel *)

Definition zfrom (a : Z) (n : nat) : list Z :=
  map (fun k => a + Z.of_nat k) (seq 0 n).

(** Zone [z] has its rectangle on [ax4]: one whose left edge is at
    [max(lon_min, 40)], [lon_min = -183 + z * 6]. *)
Definition has_zone_rect (s : state) (z : Z) : bool :=
  existsb (fun r => rx r =? Z.max (-183 + z * 6) 40)
          (rectangles "ax4" "black" s).

(** Zone [z] has its label on [ax4]: the text 'zS'. *)
Definition has_zone_label (s : state) (z : Z) : bool :=
  existsb (fun l => String.eqb (snd l) (str_int z ++ "S"))
          (cell_labels "ax4" s).

Lemma zone_panel lib :
  rectangles "ax4" "black" (final lib) =
    map (fun z => Rect (-183 + z * 6) (-70) 6 20) (zfrom 42 16) /\
  cell_labels "ax4" (final lib) =
    map (fun z => (-183 + z * 6 + 3, -71, str_int z ++ "S")) (zfrom 42 15).
Proof. vm_compute. split; reflexivity. Qed.

Lemma zone_cases z :
  42 <= z <= 58 ->
  In z [42; 43; 44; 45; 46; 47; 48; 49; 50; 51; 52; 53; 54; 55; 56; 57; 58].
Proof. intros H. simpl. lia. Qed.

Lemma has_zone_rect_final lib z :
  42 <= z <= 58 -> has_zone_rect (final lib) z = (z <=? 57).
Proof.
  intros H. unfold has_zone_rect. rewrite (proj1 (zone_panel lib)).
  apply zone_cases in H.
  repeat (destruct H as [<-|H]; [reflexivity|]). contradiction.
Qed.

Lemma has_zone_label_final lib z :
  42 <= z <= 58 -> has_zone_label (final lib) z = (z <=? 56).
Proof.
  intros H. unfold has_zone_label. rewrite (proj2 (zone_panel lib)).
  apply zone_cases in H.
  repeat (destruct H as [<-|H]; [reflexivity|]). contradiction.
Qed.

(** C10: for a zone [z] in 42..58, with [lon_min = -183 + z*6], the zone
    rectangle is on the panel exactly when [44 <= lon_min <= 160] or
    [44 <= lon_min + 6 <= 160], that is for zones 42..57, and it is the
    rectangle at [(max(lon_min, 40), -70)] of width
    [min(6, 165 - max(lon_min, 40))] and height 20; the label 'zS' is on
    the panel exactly when moreover [44 <= lon_min + 3 <= 160], that is
    for zones 42..56.  Zone 57 has a rectangle and no label, zone 58 has
    neither. *)
Theorem C10_zone_rectangles_and_labels :
  forall lib s, run lib = Ok tt s ->
  forall z, 42 <= z <= 58 ->
    (has_zone_rect s z = true <->
       44 <= -183 + z * 6 <= 160 \/ 44 <= -183 + z * 6 + 6 <= 160) /\
    (has_zone_rect s z = true <-> z <= 57) /\
    (has_zone_rect s z = true ->
       In (Rect (Z.max (-183 + z * 6) 40) (-70)
                (Z.min 6 (165 - Z.max (-183 + z * 6) 40)) 20)
          (rectangles "ax4" "black" s)) /\
    (has_zone_label s z = true <->
       (44 <= -183 + z * 6 <= 160 \/ 44 <= -183 + z * 6 + 6 <= 160) /\
       44 <= -183 + z * 6 + 3 <= 160) /\
    (has_zone_label s z = true <-> z <= 56) /\
    (has_zone_label s z = true ->
       In (-183 + z * 6 + 3, -71, str_int z ++ "S") (cell_labels "ax4" s)) /\
    has_zone_rect s 57 = true /\ has_zone_label s 57 = false /\
    has_zone_rect s 58 = false /\ has_zone_label s 58 = false.
Proof.
  intros lib s H z Hz. apply completed_run in H. subst s.
  pose proof (has_zone_rect_final lib z Hz) as Rz.
  pose proof (has_zone_label_final lib z Hz) as Lz.
  pose proof (has_zone_rect_final lib 57 ltac:(lia)) as R57.
  pose proof (has_zone_label_final lib 57 ltac:(lia)) as L57.
  pose proof (has_zone_rect_final lib 58 ltac:(lia)) as R58.
  pose proof (has_zone_label_final lib 58 ltac:(lia)) as L58.
  destruct (zone_panel lib) as [Er El].
  rewrite Rz, Lz, R57, L57, R58, L58, Er, El, !Z.leb_le.
  split; [lia|]. split; [tauto|]. split.
  { intros Hr. apply in_map_iff. exists z. split.
    - f_equal; lia.
    - unfold zfrom. apply in_map_iff. exists (Z.to_nat (z - 42)).
      split; [lia | apply in_seq; lia]. }
  split; [lia|]. split; [tauto|]. split.
  { intros Hl. apply in_map_iff. exists z. split; [reflexivity|].
    unfold zfrom. apply in_map_iff. exists (Z.to_nat (z - 42)).
    split; [lia | apply in_seq; lia]. }
  repeat split; try lia; reflexivity.
Qed.

Lemma C10_witness :
  run still = Ok tt (final still) /\ 42 <= 57 <= 58 /\
  has_zone_rect (final still) 57 = true.
Proof.
  split; [vm_compute; reflexivity|]. split; [lia|].
  destruct (C10_zone_rectangles_and_labels still (final still))
    with (z := 57) as (_ & H & _); [vm_compute; reflexivity | lia |].
  apply H. lia.
Defined.

(** * Runs under an arbitrary library *)

Lemma Exc_parts {A} e1 e2 s1 s2 :
  @Exc A e1 s1 = Exc e2 s2 -> e1 = e2 /\ s1 = s2.
Proof. intros H. injection H. auto. Qed.

Lemma LibraryError_parts c1 c2 e1 e2 :
  LibraryError c1 e1 = LibraryError c2 e2 -> c1 = c2 /\ e1 = e2.
Proof. intros H. injection H. auto. Qed.

(** Whatever the library does, the calls of a run are an initial segment of
    the planned ones. *)
Lemma run_prefix lib :
  exists post, planned lib = (calls (state_of (run lib)) ++ post)%list.
Proof.
  pose proof (run_replay lib) as R.
  destruct (replay lib [] (planned lib)) as [h [[c e]|]] eqn:E.
  - destruct R as (s' & Er & Ht). rewrite Er. cbn [state_of].
    apply replay_raised in E. destruct E as (pre & post & Ep & Eh & _).
    exists (c :: post). unfold calls. rewrite Ht, Eh, app_nil_r, rev_involutive.
    exact Ep.
  - rewrite R. exists []. rewrite app_nil_r.
    unfold planned, calls. reflexivity.
Qed.

(** A run that ends in a library error stopped right before the call that
    raised. *)
Lemma run_raised lib c e s :
  run lib = Exc (LibraryError c e) s ->
  exists post, planned lib = (calls s ++ c :: post)%list.
Proof.
  intros H. pose proof (run_replay lib) as R.
  destruct (replay lib [] (planned lib)) as [h [[c' e']|]] eqn:E.
  - destruct R as (s' & Er & Ht). rewrite Er in H.
    apply Exc_parts in H. destruct H as [He <-].
    apply LibraryError_parts in He. destruct He as [<- <-].
    apply replay_raised in E. destruct E as (pre & post & Ep & Eh & _).
    exists post. unfold calls. rewrite Ht, Eh, app_nil_r, rev_involutive.
    exact Ep.
  - rewrite R, run_quiet in H. discriminate H.
Qed.

(** [pre], made in order from the start, goes through without a raise. *)
Definition passes (lib : library) (pre : list call) : Prop :=
  replay lib [] pre = (rev pre, None).

Lemma passes_iff_gen lib l : forall h,
  replay lib h l = ((rev l ++ h)%list, None) <->
  forall p c r, l = (p ++ c :: r)%list -> raises lib (rev p ++ h)%list c = None.
Proof.
  induction l as [|a l IH]; intros h.
  - split; [|reflexivity]. intros _ [|? ?] ? ? Hp; discriminate Hp.
  - cbn [replay rev]. rewrite <- app_assoc. cbn [app]. split.
    + intros H p c r Hp. destruct (raises lib h a) eqn:Ea; [discriminate|].
      destruct p as [|b p]; cbn [app] in Hp; injection Hp as -> ->.
      * exact Ea.
      * cbn [rev]. rewrite <- app_assoc. cbn [app].
        exact (proj1 (IH (b :: h)) H p c r eq_refl).
    + intros H. pose proof (H [] a l eq_refl) as Ea. cbn [rev app] in Ea.
      rewrite Ea. apply IH. intros p c r ->.
      specialize (H (a :: p) c r eq_refl). cbn [rev] in H.
      rewrite <- app_assoc in H. exact H.
Qed.

Lemma passes_iff lib pre :
  passes lib pre <->
  forall p c r, pre = (p ++ c :: r)%list -> raises lib (rev p) c = None.
Proof.
  unfold passes. rewrite <- (app_nil_r (rev pre)) at 1.
  rewrite passes_iff_gen. split; intros H p c r Hp.
  - rewrite <- (app_nil_r (rev p)). eauto.
  - rewrite app_nil_r. eauto.
Qed.

(** C7: the script handles nothing.  If the calls before [c] go through
    and the library raises [e] at [c], the run ends there with that very
    error: exactly the calls before [c] were made, [c] is not retried and
    nothing planned after it is attempted. *)
Theorem C7_library_errors_propagate :
  forall lib pre c post e,
    planned lib = (pre ++ c :: post)%list ->
    passes lib pre ->
    raises lib (rev pre) c = Some e ->
    exists s, run lib = Exc (LibraryError c e) s /\ calls s = pre.
Proof.
  intros lib pre c post e Hp Hpre Hc.
  pose proof (run_replay lib) as R.
  rewrite Hp, replay_app, Hpre in R. cbn [replay] in R. rewrite Hc in R.
  destruct R as (s & Er & Ht). exists s. split; [exact Er|].
  unfold calls. rewrite Ht. apply rev_involutive.
Qed.

(** A library that refuses every write to disk. *)
Definition denied : library :=
  {| raises := fun _ c =>
                 if writes_file c then Some "PermissionError" else None;
     viridis := viridis still |}.

Lemma C7_witness :
  exists s,
    run denied =
      Exc (LibraryError
             (Call Pyplot "savefig" [VStr overview_path]
                   [("dpi", VInt 300); ("bbox_inches", VStr "tight");
                    ("facecolor", VStr "white")])
             "PermissionError") s /\
    calls s = firstn 346 (planned denied).
Proof.
  apply (C7_library_errors_propagate denied (firstn 346 (planned denied)) _
           (skipn 347 (planned denied)));
    vm_compute; reflexivity.
Defined.

(** ** Status messages and files *)

(** What was handed to [print], in order. *)
Definition printed_by (cs : list call) : list string :=
  choose (fun c =>
            match c_target c, c_args c with
            | Builtin, [VStr t] =>
                if String.eqb (c_func c) "print" then Some t else None
            | _, _ => None
            end) cs.

Definition printed (s : state) : list string := printed_by (calls s).

(** The paths written, in order. *)
Definition paths_by (cs : list call) : list string :=
  map s_path (choose saved_by cs).

Definition paths_written (s : state) : list string := paths_by (calls s).

Definition overview_saved : string := "Grid system overview diagram saved!".
Definition detail_saved : string := "Grid nesting detail diagram saved!".
Definition success : string := nl ++ "Diagrams created successfully!".

Fixpoint strings_eqb (a b : list string) : bool :=
  match a, b with
  | [], [] => true
  | x :: a', y :: b' => String.eqb x y && strings_eqb a' b'
  | _, _ => false
  end.

Lemma strings_eqb_eq a : forall b, strings_eqb a b = true -> a = b.
Proof.
  induction a as [|x a IH]; intros [|y b] H; simpl in H;
    try discriminate; [reflexivity|].
  apply andb_true_iff in H. destruct H as [Hx Ha].
  apply String.eqb_eq in Hx. apply IH in Ha. congruence.
Qed.

Definition mem (x : string) (l : list string) : bool :=
  existsb (String.eqb x) l.

Lemma mem_In x l : In x l -> mem x l = true.
Proof.
  intros H. apply existsb_exists. exists x. split; [exact H|].
  apply String.eqb_refl.
Qed.

(** After the calls [cs]: each success message has its file behind it. *)
Definition reports_backed (cs : list call) : bool :=
  implb (mem overview_saved (printed_by cs))
        (mem overview_path (paths_by cs)) &&
  implb (mem detail_saved (printed_by cs))
        (mem detail_path (paths_by cs)) &&
  implb (mem success (printed_by cs))
        (strings_eqb (paths_by cs) [overview_path; detail_path]).

(** When the write [c] comes after the calls [cs]: nothing has yet been
    reported about it or about anything after it. *)
Definition unreported (cs : list call) (c : call) : bool :=
  implb (writes_file c)
    ((is_str (hd_error (c_args c)) overview_path
      && strings_eqb (paths_by cs) []
      && strings_eqb (printed_by cs) [])
     || (is_str (hd_error (c_args c)) detail_path
         && strings_eqb (paths_by cs) [overview_path]
         && strings_eqb (printed_by cs) [overview_saved])).

(** [P] holds before every call of [l], and at the end. *)
Fixpoint at_each_point (P : list call -> option call -> bool)
  (done : list call) (l : list call) : bool :=
  match l with
  | [] => P (rev done) None
  | c :: l' => P (rev done) (Some c) && at_each_point P (c :: done) l'
  end.

Lemma at_each_point_call P l : forall done,
  at_each_point P done l = true ->
  forall pre c post, l = (pre ++ c :: post)%list ->
    P (rev done ++ pre)%list (Some c) = true.
Proof.
  induction l as [|a l IH]; intros done H pre c post Hl.
  - destruct pre; discriminate Hl.
  - cbn [at_each_point] in H. apply andb_true_iff in H. destruct H as [Ha Hr].
    destruct pre as [|b pre]; cbn [app] in Hl; injection Hl as -> ->.
    + rewrite app_nil_r. exact Ha.
    + specialize (IH _ Hr pre c post eq_refl). cbn [rev] in IH.
      rewrite <- app_assoc in IH. exact IH.
Qed.

Lemma at_each_point_prefix (P : list call -> bool) l : forall done,
  at_each_point (fun cs _ => P cs) done l = true ->
  forall pre post, l = (pre ++ post)%list -> P (rev done ++ pre)%list = true.
Proof.
  induction l as [|a l IH]; intros done H pre post Hl.
  - destruct pre; [|discriminate Hl]. rewrite app_nil_r. exact H.
  - cbn [at_each_point] in H. apply andb_true_iff in H. destruct H as [Ha Hr].
    destruct pre as [|b pre].
    + rewrite app_nil_r. exact Ha.
    + cbn [app] in Hl. injection Hl as -> ->.
      specialize (IH _ Hr pre post eq_refl). cbn [rev] in IH.
      rewrite <- app_assoc in IH. exact IH.
Qed.

Lemma planned_reports_backed lib :
  at_each_point (fun cs _ => reports_backed cs) [] (planned lib) = true.
Proof. vm_compute. reflexivity. Qed.

Lemma planned_unreported lib :
  at_each_point (fun cs c => match c with
                             | Some c => unreported cs c
                             | None => true
                             end) [] (planned lib) = true.
Proof. vm_compute. reflexivity. Qed.

Lemma mem_true x l : mem x l = true -> In x l.
Proof.
  intros H. apply existsb_exists in H. destruct H as (y & Hy & E).
  apply String.eqb_eq in E. now subst.
Qed.

Lemma reports_backed_spec cs :
  reports_backed cs = true ->
  (In success (printed_by cs) -> paths_by cs = [overview_path; detail_path]) /\
  (In overview_saved (printed_by cs) -> In overview_path (paths_by cs)) /\
  (In detail_saved (printed_by cs) -> In detail_path (paths_by cs)).
Proof.
  unfold reports_backed. intros H.
  apply andb_true_iff in H. destruct H as [H H3].
  apply andb_true_iff in H. destruct H as [H1 H2].
  repeat split; intros Hin; apply mem_In in Hin.
  - rewrite Hin in H3. apply strings_eqb_eq. exact H3.
  - rewrite Hin in H1. apply mem_true. exact H1.
  - rewrite Hin in H2. apply mem_true. exact H2.
Qed.

Lemma unreported_spec cs c :
  unreported cs c = true -> writes_file c = true ->
  (is_str (hd_error (c_args c)) overview_path = true /\
   paths_by cs = [] /\ printed_by cs = []) \/
  (is_str (hd_error (c_args c)) detail_path = true /\
   paths_by cs = [overview_path] /\ printed_by cs = [overview_saved]).
Proof.
  unfold unreported. intros H W. rewrite W in H. cbn [implb] in H.
  apply orb_true_iff in H. destruct H as [H|H]; [left|right];
    apply andb_true_iff in H; destruct H as [H Hp];
    apply andb_true_iff in H; destruct H as [Hc Hf];
    auto using strings_eqb_eq.
Qed.

Lemma run_reports_backed lib :
  reports_backed (calls (state_of (run lib))) = true.
Proof.
  destruct (run_prefix lib) as [post Hp].
  exact (at_each_point_prefix reports_backed (planned lib) []
           (planned_reports_backed lib) _ _ Hp).
Qed.

Lemma run_unreported lib c e s :
  run lib = Exc (LibraryError c e) s -> unreported (calls s) c = true.
Proof.
  intros H. destruct (run_raised lib c e s H) as [post Hp].
  exact (at_each_point_call _ (planned lib) [] (planned_unreported lib) _ _ _ Hp).
Qed.

(** C8: whatever the library does, the message that a figure was saved is
    printed only after its file was written, and the closing success
    message only after both files were, in order.  If the run ends because
    a write raised, nothing was reported about that file or about anything
    after it: when the overview cannot be written no file was written and
    nothing was printed; when the detail cannot be written the overview
    is the only file and its message the only one printed. *)
Theorem C8_no_success_after_failed_write :
  forall lib,
    ((In success (printed (state_of (run lib))) ->
      paths_written (state_of (run lib)) =
        ["/mnt/user-data/outputs/grid_system_overview.png";
         "/mnt/user-data/outputs/grid_nesting_detail.png"]) /\
     (In overview_saved (printed (state_of (run lib))) ->
      In overview_path (paths_written (state_of (run lib)))) /\
     (In detail_saved (printed (state_of (run lib))) ->
      In detail_path (paths_written (state_of (run lib))))) /\
    forall c e s,
      run lib = Exc (LibraryError c e) s -> writes_file c = true ->
      (is_str (hd_error (c_args c)) overview_path = true /\
       paths_written s = [] /\ printed s = []) \/
      (is_str (hd_error (c_args c)) detail_path = true /\
       paths_written s = [overview_path] /\ printed s = [overview_saved]).
Proof.
  intros lib. split.
  - exact (reports_backed_spec _ (run_reports_backed lib)).
  - intros c e s H W.
    exact (unreported_spec _ _ (run_unreported lib c e s H) W).
Qed.

Lemma denied_run :
  exists s,
    run denied =
      Exc (LibraryError
             (Call Pyplot "savefig" [VStr overview_path]
                   [("dpi", VInt 300); ("bbox_inches", VStr "tight");
                    ("facecolor", VStr "white")])
             "PermissionError") s.
Proof.
  pose proof (run_replay denied) as R.
  assert (E : replay denied [] (planned denied) =
              (rev (firstn 346 (planned denied)),
               Some (Call Pyplot "savefig" [VStr overview_path]
                       [("dpi", VInt 300); ("bbox_inches", VStr "tight");
                        ("facecolor", VStr "white")], "PermissionError")))
    by (vm_compute; reflexivity).
  rewrite E in R. destruct R as (s & Hr & _). exists s. exact Hr.
Defined.

Lemma C8_witness :
  exists c e s,
    run denied = Exc (LibraryError c e) s /\ writes_file c = true /\
    printed s = [].
Proof.
  destruct denied_run as (s & Hr).
  eexists _, _, s. split; [exact Hr|]. split; [reflexivity|].
  destruct (proj2 (C8_no_success_after_failed_write denied) _ _ _ Hr eq_refl)
    as [(_ & _ & Hp)|(Hd & _)]; [exact Hp | discriminate Hd].
Defined.

(** ** Determinism *)

(** Everything the script ever asks of a library: it opens figures and
    axes, computes 36 evenly spaced numbers and their colours, builds
    patches, draws, saves, and prints.  None of these reads an argument, an
    environment variable or a file. *)
Definition draws_or_reports (c : call) : bool :=
  match c_target c with
  | Pyplot =>
      existsb (String.eqb (c_func c))
        ["figure"; "subplot"; "subplots"; "tight_layout"; "savefig"]
  | Colormap => String.eqb (c_func c) "viridis"
  | Numpy => String.eqb (c_func c) "linspace"
  | Method _ =>
      existsb (String.eqb (c_func c))
        ["suptitle"; "set_title"; "set_aspect"; "set_xlim"; "set_ylim";
         "set_xlabel"; "set_ylabel"; "add_patch"; "text"; "annotate"; "grid";
         "set_xticks"; "set_yticks"; "axis"; "plot"; "axvline"; "axhline";
         "legend"]
  | Patches =>
      existsb (String.eqb (c_func c)) ["Rectangle"; "FancyBboxPatch"]
  | Builtin => String.eqb (c_func c) "print"
  end.

Lemma planned_calls lib : planned lib = calls (final lib).
Proof. unfold planned, calls, final. reflexivity. Qed.

Lemma final_same_colormap lib1 lib2 :
  viridis lib1 = viridis lib2 -> final lib1 = final lib2.
Proof.
  destruct lib1 as [r1 v1], lib2 as [r2 v2]. cbn [viridis]. intros ->.
  vm_compute. reflexivity.
Qed.

Lemma planned_draws_or_reports lib :
  Forall (fun c => draws_or_reports c = true) (planned lib).
Proof.
  apply Forall_forall, forallb_forall. vm_compute. reflexivity.
Qed.

(** C6: the script takes no input.  Its run is a function of the library
    alone, from the empty state; every call it makes is a drawing, saving
    or printing call; and two runs against libraries with the same
    colormap, however differently those behave otherwise, draw initial
    segments of one and the same sequence of calls, with the same
    arguments, and end in the same state when both complete. *)
Theorem C6_runs_are_deterministic :
  forall lib1 lib2, viridis lib1 = viridis lib2 ->
    planned lib1 = planned lib2 /\
    (exists post, planned lib1 = (calls (state_of (run lib1)) ++ post)%list) /\
    (exists post, planned lib1 = (calls (state_of (run lib2)) ++ post)%list) /\
    (forall s1 s2, run lib1 = Ok tt s1 -> run lib2 = Ok tt s2 -> s1 = s2) /\
    Forall (fun c => draws_or_reports c = true) (planned lib1).
Proof.
  intros lib1 lib2 Hv. pose proof (final_same_colormap lib1 lib2 Hv) as Hf.
  assert (Hp : planned lib1 = planned lib2).
  { rewrite (planned_calls lib1), (planned_calls lib2), Hf. reflexivity. }
  split; [exact Hp|]. split; [apply run_prefix|].
  split; [rewrite Hp; apply run_prefix|]. split.
  - intros s1 s2 H1 H2. apply completed_run in H1, H2.
    rewrite H1, H2. exact Hf.
  - apply planned_draws_or_reports.
Qed.

Lemma C6_witness :
  viridis still = viridis denied /\ planned still = planned denied.
Proof.
  split; [reflexivity|].
  apply (C6_runs_are_deterministic still denied). reflexivity.
Defined.


(** * Further properties of the script *)

(** ** How a run can end *)

(** X1: a run completes exactly when none of the planned calls raises;
    otherwise it stops at the first call that raises, with that library
    error.  In particular no run ends in a NameError, TypeError, ValueError
    or IndexError of the script's own. *)
Theorem run_ends_in_completion_or_library_error :
  forall lib,
    (run lib = Ok tt (final lib) <-> passes lib (planned lib)) /\
    (run lib = Ok tt (final lib) \/
     exists pre c post e s,
       planned lib = (pre ++ c :: post)%list /\ passes lib pre /\
       raises lib (rev pre) c = Some e /\
       run lib = Exc (LibraryError c e) s /\ calls s = pre).
Proof.
  intros lib. pose proof (run_replay lib) as R. unfold passes.
  destruct (replay lib [] (planned lib)) as [h [[c e]|]] eqn:E.
  - destruct R as (s & Er & Ht).
    apply replay_raised in E. destruct E as (pre & post & Ep & Eh & Epre & Ec).
    rewrite app_nil_r in Eh. subst h. split.
    + split; intros H.
      * rewrite Er in H. discriminate H.
      * apply (f_equal snd) in H. cbn [snd] in H. discriminate H.
    + right. exists pre, c, post, e, s. repeat split; try assumption.
      unfold calls. rewrite Ht. apply rev_involutive.
  - pose proof (replay_passed _ _ _ _ E) as Eh. rewrite app_nil_r in Eh. subst h.
    rewrite R, run_quiet. split; [split; intros _; reflexivity | left; reflexivity].
Qed.

(** ** Figures, axes and saving *)

(** The figure a handle belongs to, in the pyplot state [p]. *)
Definition figure_of (p : pyplot) (h : handle) : option nat :=
  match h with
  | Figure f => if Nat.ltb f (n_figures p) then Some f else None
  | Axes a =>
      match find (fun af => Nat.eqb (fst af) a) (owner p) with
      | Some (_, f) => Some f
      | None => None
      end
  end.

(** The figures saved by the calls [cs], oldest first: the one current at
    each call that writes a file. *)
Fixpoint saved_figures_from (p : pyplot) (cs : list call) : list nat :=
  match cs with
  | [] => []
  | c :: cs' =>
      (if writes_file c
       then match current p with Some f => [f] | None => [] end
       else []) ++ saved_figures_from (pyplot_step p c) cs'
  end.

Definition saved_figures (cs : list call) : list nat :=
  saved_figures_from (Pyplot_state 0 0 None []) cs.

(** The call [c], coming after [cs], is a method call on a figure, or on
    an axes of a figure, that has not been saved yet. *)
Definition draws_on_unsaved (cs : list call) (c : call) : bool :=
  match c_target c with
  | Method h =>
      match figure_of (pyplot_of cs) h with
      | Some f => negb (existsb (Nat.eqb f) (saved_figures cs))
      | None => false
      end
  | _ => true
  end.

(** The call [c], coming after [cs], is a method call on the axes created
    last, or on the current figure. *)
Definition draws_on_latest (cs : list call) (c : call) : bool :=
  match c_target c with
  | Method (Axes a) => Nat.eqb (S a) (n_axes (pyplot_of cs))
  | Method (Figure f) =>
      match current (pyplot_of cs) with
      | Some g => Nat.eqb f g
      | None => false
      end
  | _ => true
  end.

(** [plt.savefig] and [plt.tight_layout] act on the current figure: when
    [c] is one of them, a figure is current and it has axes. *)
Definition saves_a_drawn_figure (cs : list call) (c : call) : bool :=
  match c_target c with
  | Pyplot =>
      if String.eqb (c_func c) "savefig" || String.eqb (c_func c) "tight_layout"
      then match current (pyplot_of cs) with
           | Some f => existsb (fun af => Nat.eqb (snd af) f)
                               (owner (pyplot_of cs))
           | None => false
           end
      else true
  | _ => true
  end.

Definition before_call (P : list call -> call -> bool)
  (cs : list call) (c : option call) : bool :=
  match c with
  | Some c => P cs c
  | None => true
  end.

Lemma planned_draws_on_unsaved lib :
  at_each_point (before_call draws_on_unsaved) [] (planned lib) = true.
Proof. vm_compute. reflexivity. Qed.

Lemma planned_draws_on_latest lib :
  at_each_point (before_call draws_on_latest) [] (planned lib) = true.
Proof. vm_compute. reflexivity. Qed.

Lemma planned_saves_a_drawn_figure lib :
  at_each_point (before_call saves_a_drawn_figure) [] (planned lib) = true.
Proof. vm_compute. reflexivity. Qed.

(** A property of every planned call, given the calls before it, holds of
    every call a run made. *)
Lemma at_each_call_of_run (P : list call -> call -> bool) lib :
  at_each_point (before_call P) [] (planned lib) = true ->
  forall pre c post,
    calls (state_of (run lib)) = (pre ++ c :: post)%list -> P pre c = true.
Proof.
  intros HP pre c post Hc. destruct (run_prefix lib) as [rest Hr].
  rewrite Hc, <- app_assoc in Hr. cbn [app] in Hr.
  exact (at_each_point_call _ _ [] HP _ _ _ Hr).
Qed.

(** X2: in every run, complete or cut short, whatever the library does: a
    method is only ever called on a figure, or on an axes of a figure, that
    has not been saved yet, so nothing is drawn on a figure after its file
    was written. *)
Theorem nothing_drawn_after_save :
  forall lib pre c post h,
    calls (state_of (run lib)) = (pre ++ c :: post)%list ->
    c_target c = Method h ->
    exists f, figure_of (pyplot_of pre) h = Some f /\
              ~ In f (saved_figures pre).
Proof.
  intros lib pre c post h Hc Ht.
  pose proof (at_each_call_of_run _ lib (planned_draws_on_unsaved lib) _ _ _ Hc) as H.
  unfold draws_on_unsaved in H. rewrite Ht in H.
  destruct (figure_of (pyplot_of pre) h) as [f|]; [|discriminate H].
  exists f. split; [reflexivity|]. intros Hin.
  apply negb_true_iff in H.
  assert (E : existsb (Nat.eqb f) (saved_figures pre) = true).
  { apply existsb_exists. exists f. split; [exact Hin | apply Nat.eqb_refl]. }
  congruence.
Qed.

Lemma nothing_drawn_after_save_witness :
  exists f, figure_of (pyplot_of (firstn 349 (planned still)))
                      (Axes 6) = Some f /\
            ~ In f (saved_figures (firstn 349 (planned still))).
Proof.
  apply (nothing_drawn_after_save still (firstn 349 (planned still))
           (Call (Method (Axes 6)) "set_title"
              [VStr ("L1/L2 Tile Nesting Detail" ++ nl
                     ++ "(One L1 tile = 6×6 L2 tiles)")]
              [("fontsize", VInt 14); ("fontweight", VStr "bold");
               ("pad", VInt 20)])
           (skipn 350 (planned still)));
    vm_compute; reflexivity.
Defined.

(** X3: in every run, whatever the library does, a method call on an axes
    is a call on the axes created last, and a method call on a figure is a
    call on the current figure: no panel draws on the axes of another.
    And when [plt.tight_layout] or [plt.savefig] is called, a figure is
    current and it has axes. *)
Theorem each_panel_draws_on_its_own_axes :
  forall lib pre c post,
    calls (state_of (run lib)) = (pre ++ c :: post)%list ->
    (forall a, c_target c = Method (Axes a) ->
       n_axes (pyplot_of pre) = S a) /\
    (forall f, c_target c = Method (Figure f) ->
       current (pyplot_of pre) = Some f) /\
    (c_target c = Pyplot ->
     c_func c = "savefig" \/ c_func c = "tight_layout" ->
     exists f a, current (pyplot_of pre) = Some f /\
                 In (a, f) (owner (pyplot_of pre))).
Proof.
  intros lib pre c post Hc.
  pose proof (at_each_call_of_run _ lib (planned_draws_on_latest lib) _ _ _ Hc) as H1.
  pose proof (at_each_call_of_run _ lib (planned_saves_a_drawn_figure lib) _ _ _ Hc) as H2.
  unfold draws_on_latest in H1. unfold saves_a_drawn_figure in H2.
  split; [|split].
  - intros a Ht. rewrite Ht in H1. apply Nat.eqb_eq in H1. now symmetry.
  - intros f Ht. rewrite Ht in H1.
    destruct (current (pyplot_of pre)) as [g|]; [|discriminate H1].
    apply Nat.eqb_eq in H1. now subst.
  - intros Ht Hf. rewrite Ht in H2.
    assert (E : String.eqb (c_func c) "savefig"
                || String.eqb (c_func c) "tight_layout" = true).
    { apply orb_true_iff. destruct Hf as [->| ->]; [left|right]; reflexivity. }
    rewrite E in H2.
    destruct (current (pyplot_of pre)) as [f|]; [|discriminate H2].
    apply existsb_exists in H2. destruct H2 as ([a g] & Hin & Hg).
    cbn [snd] in Hg. apply Nat.eqb_eq in Hg. subst g. eauto.
Qed.

Lemma each_panel_draws_on_its_own_axes_witness :
  n_axes (pyplot_of (firstn 349 (planned still))) = 7%nat.
Proof.
  apply (each_panel_draws_on_its_own_axes still (firstn 349 (planned still))
           (Call (Method (Axes 6)) "set_title"
              [VStr ("L1/L2 Tile Nesting Detail" ++ nl
                     ++ "(One L1 tile = 6×6 L2 tiles)")]
              [("fontsize", VInt 14); ("fontweight", VStr "bold");
               ("pad", VInt 20)])
           (skipn 350 (planned still)));
    vm_compute; reflexivity.
Defined.

(** ** Console output *)

(** What follows the last slash of a path. *)
Fixpoint basename (s : string) : string :=
  match s with
  | EmptyString => EmptyString
  | String c s' =>
      if existsb (Ascii.eqb "/"%char) (list_ascii_of_string s')
      then basename s'
      else if Ascii.eqb c "/"%char then s' else s
  end.

Lemma printed_final lib :
  printed (final lib) =
  [overview_saved; detail_saved; success;
   "- " ++ basename overview_path ++ ": Complete system overview";
   "- " ++ basename detail_path ++ ": Detailed view of tile nesting"].
Proof. vm_compute. reflexivity. Qed.

(** What the [print] calls write to the console: each string, followed by
    the newline [print] adds. *)
Definition console (s : state) : string :=
  String.concat "" (map (fun t => t ++ nl) (printed s)).

(** The lines of a text: the pieces its newlines end. *)
Fixpoint lines_of (s : string) : list string :=
  match s with
  | EmptyString => []
  | String c s' =>
      if Ascii.eqb c (ascii_of_nat 10) then "" :: lines_of s'
      else match lines_of s' with
           | [] => [String c ""]
           | l :: ls => String c l :: ls
           end
  end.

Lemma console_final lib :
  lines_of (console (final lib)) =
  ["Grid system overview diagram saved!";
   "Grid nesting detail diagram saved!";
   "";
   "Diagrams created successfully!";
   "- grid_system_overview.png: Complete system overview";
   "- grid_nesting_detail.png: Detailed view of tile nesting"].
Proof. vm_compute. reflexivity. Qed.

(** X4: a run that completes calls [print] exactly five times: once after
    each file is saved, once for the closing success message and once per
    file.  The third string begins with a newline, so the console shows
    six lines, the third of them blank.  The file names in the last two
    lines are the names of the two files written, in the order they were
    written. *)
Theorem completed_run_prints_five_lines :
  forall lib s, run lib = Ok tt s ->
    printed s =
      ["Grid system overview diagram saved!";
       "Grid nesting detail diagram saved!";
       nl ++ "Diagrams created successfully!";
       "- grid_system_overview.png: Complete system overview";
       "- grid_nesting_detail.png: Detailed view of tile nesting"] /\
    List.length (printed s) = 5%nat /\
    lines_of (console s) =
      ["Grid system overview diagram saved!";
       "Grid nesting detail diagram saved!";
       "";
       "Diagrams created successfully!";
       "- grid_system_overview.png: Complete system overview";
       "- grid_nesting_detail.png: Detailed view of tile nesting"] /\
    List.length (lines_of (console s)) = 6%nat /\
    skipn 3 (printed s) =
      map (fun pd => "- " ++ basename (fst pd) ++ ": " ++ snd pd)
          (combine (paths_written s)
                   ["Complete system overview";
                    "Detailed view of tile nesting"]).
Proof.
  intros lib s H. apply completed_run in H. subst s.
  rewrite console_final, printed_final.
  split; [reflexivity|]. split; [reflexivity|].
  split; [reflexivity|]. split; [reflexivity|].
  vm_compute. reflexivity.
Qed.

Lemma completed_run_prints_five_lines_witness :
  run still = Ok tt (final still) /\
  List.length (lines_of (console (final still))) = 6%nat.
Proof.
  split; [vm_compute; reflexivity|].
  assert (R : run still = Ok tt (final still)) by (vm_compute; reflexivity).
  pose proof (completed_run_prints_five_lines still (final still) R)
    as (_ & _ & _ & H & _).
  exact H.
Defined.

(** ** The two figures are independent *)

Lemma uniform_second_half : uniform (detail ;; report).
Proof.
  unfold detail.
  apply uniform_bind; [|intro; exact uniform_report].
  apply uniform_bind; [exact uniform_detail_drawing | intro].
  exact uniform_save_detail.
Qed.

Lemma quiet_second_half lib g g' t u u' :
  observable ((detail ;; report) (quiet lib) (State g t u)) =
  observable ((detail ;; report) (quiet lib) (State g' t u')).
Proof. vm_compute. reflexivity. Qed.

(** X5: everything from [plt.subplots] on (the nesting-detail figure, its
    saving and the closing messages) makes the same calls and ends the
    same way whatever globals the overview code left behind: the second
    figure reads no name the first one assigned. *)
Theorem detail_figure_ignores_overview_globals :
  ignores_globals (detail ;; report) /\
  script = (overview ;; detail ;; report).
Proof.
  split; [|reflexivity].
  intros lib g g' t u u'.
  apply (uniform_observable _ uniform_second_half);
    [reflexivity | apply quiet_second_half].
Qed.

(** ** Patches and axes limits *)

Definition num_float (v : value) : option float :=
  match v with
  | VInt z => Some (float_of_int z)
  | VFloat f => Some f
  | _ => None
  end.

(** The pair of numbers last given to the method [f] ([set_xlim] or
    [set_ylim]) of the axes [x]. *)
Definition limit (x f : string) (s : state) : option (float * float) :=
  match rev (method_calls x f s) with
  | c :: _ =>
      match c_args c with
      | [a; b] =>
          match num_float a, num_float b with
          | Some lo, Some hi => Some (lo, hi)
          | _, _ => None
          end
      | _ => None
      end
  | [] => None
  end.

(** A [Rectangle] at [(x, y)] of size [w] by [h] spans no more than the
    limits [xl] and [yl]. *)
Definition within (xl yl : float * float) (v : value) : bool :=
  match v with
  | VObj _ [VTuple [x; y]; w; h] _ =>
      match num_float x, num_float y, num_float w, num_float h with
      | Some x, Some y, Some w, Some h =>
          PrimFloat.leb (fst xl) x && PrimFloat.leb (x + w) (snd xl)
          && PrimFloat.leb (fst yl) y && PrimFloat.leb (y + h) (snd yl)
      | _, _, _, _ => false
      end
  | _ => false
  end.

Ltac within_limits_by_computation :=
  eexists _, _; split; [vm_compute; reflexivity|];
  split; [vm_compute; reflexivity|];
  apply (proj2 (Forall_forall _ _)), (proj1 (forallb_forall _ _));
  vm_compute; reflexivity.

Lemma within_limits_ax1 lib :
  exists xl yl,
    limit "ax1" "set_xlim" (final lib) = Some xl /\
    limit "ax1" "set_ylim" (final lib) = Some yl /\
    Forall (fun v => within xl yl v = true) (patches "ax1" (final lib)).
Proof. within_limits_by_computation. Qed.

Lemma within_limits_ax2 lib :
  exists xl yl,
    limit "ax2" "set_xlim" (final lib) = Some xl /\
    limit "ax2" "set_ylim" (final lib) = Some yl /\
    Forall (fun v => within xl yl v = true) (patches "ax2" (final lib)).
Proof. within_limits_by_computation. Qed.

Lemma within_limits_ax4 lib :
  exists xl yl,
    limit "ax4" "set_xlim" (final lib) = Some xl /\
    limit "ax4" "set_ylim" (final lib) = Some yl /\
    Forall (fun v => within xl yl v = true) (patches "ax4" (final lib)).
Proof. within_limits_by_computation. Qed.

Lemma within_limits_ax lib :
  exists xl yl,
    limit "ax" "set_xlim" (final lib) = Some xl /\
    limit "ax" "set_ylim" (final lib) = Some yl /\
    Forall (fun v => within xl yl v = true) (patches "ax" (final lib)).
Proof. within_limits_by_computation. Qed.

(** X6: on each axes whose limits the script sets (subplots 1, 2 and 4
    and the detail axes) every rectangle added lies within those limits,
    so no tile, index cell, highlight or zone rectangle is cut off. *)
Theorem rectangles_lie_within_axes_limits :
  forall lib s, run lib = Ok tt s ->
  forall x, In x ["ax1"; "ax2"; "ax4"; "ax"] ->
    exists xl yl,
      limit x "set_xlim" s = Some xl /\ limit x "set_ylim" s = Some yl /\
      Forall (fun v => within xl yl v = true) (patches x s).
Proof.
  intros lib s H x Hx. apply completed_run in H. subst s.
  destruct Hx as [<-|[<-|[<-|[<-|[]]]]].
  - exact (within_limits_ax1 lib).
  - exact (within_limits_ax2 lib).
  - exact (within_limits_ax4 lib).
  - exact (within_limits_ax lib).
Qed.

Lemma rectangles_lie_within_axes_limits_witness :
  run still = Ok tt (final still) /\
  exists xl yl,
    limit "ax4" "set_xlim" (final still) = Some xl /\
    limit "ax4" "set_ylim" (final still) = Some yl /\
    Forall (fun v => within xl yl v = true) (patches "ax4" (final still)).
Proof.
  split; [vm_compute; reflexivity|].
  apply (rectangles_lie_within_axes_limits still (final still));
    [vm_compute; reflexivity | right; right; left; reflexivity].
Defined.

(** ** Grid lines of the detail figure *)

(** The positions given to the method [f] ([axvline] or [axhline]) of the
    axes [x]. *)
Definition lines_at (x f : string) (s : state) : list Z :=
  choose (fun c => match c_args c with
                   | [VInt p] => Some p
                   | _ => None
                   end) (method_calls x f s).

Lemma detail_lines lib :
  lines_at "ax" "axvline" (final lib) = map (fun k => k * 6) (zrange 7) /\
  lines_at "ax" "axhline" (final lib) = map (fun k => k * 6) (zrange 7).
Proof. vm_compute. split; reflexivity. Qed.

Lemma in_sixes x :
  In x (map (fun k => k * 6) (zrange 7)) <-> exists k, 0 <= k <= 6 /\ x = k * 6.
Proof.
  rewrite in_map_iff. split.
  - intros (k & <- & Hk). apply in_zrange in Hk. exists k. lia.
  - intros (k & Hk & ->). exists k. split; [reflexivity|].
    apply in_zrange. lia.
Qed.

(** X7: in the detail figure the vertical grid lines are drawn exactly at
    the left and right edges of the 36 cells, and the horizontal ones
    exactly at their bottom and top edges: seven of each, none twice. *)
Theorem grid_lines_follow_cell_edges :
  forall lib s, run lib = Ok tt s ->
    (forall x, In x (lines_at "ax" "axvline" s) <->
       exists c, In c (inner_tiles "ax" s) /\ (x = rx c \/ x = rx c + rw c)) /\
    (forall y, In y (lines_at "ax" "axhline" s) <->
       exists c, In c (inner_tiles "ax" s) /\ (y = ry c \/ y = ry c + rh c)) /\
    NoDup (lines_at "ax" "axvline" s) /\ NoDup (lines_at "ax" "axhline" s) /\
    List.length (lines_at "ax" "axvline" s) = 7%nat /\
    List.length (lines_at "ax" "axhline" s) = 7%nat.
Proof.
  intros lib s H. apply completed_run in H. subst s.
  destruct (detail_lines lib) as [Ev Eh]. rewrite Ev, Eh, inner_ax.
  assert (N : NoDup (map (fun k => k * 6) (zrange 7))).
  { repeat constructor; simpl; intuition discriminate. }
  assert (V : forall x, In x (map (fun k => k * 6) (zrange 7)) <->
              exists c, In c grid_cells /\ (x = rx c \/ x = rx c + rw c)).
  { intros x. split.
    - intros Hx. apply in_sixes in Hx. destruct Hx as (k & Hk & ->).
      destruct (Z.eq_dec k 6) as [->|Hk6].
      + exists (Rect (5 * 6) 0 6 6). split; [|right; reflexivity].
        apply in_grid_cells. exists 5, 0. repeat split; lia.
      + exists (Rect (k * 6) 0 6 6). split; [|left; reflexivity].
        apply in_grid_cells. exists k, 0. repeat split; lia.
    - intros (c & Hc & Hx). apply in_grid_cells in Hc.
      destruct Hc as (i & j & Hi & Hj & ->). cbn [rx rw] in Hx.
      apply in_sixes. destruct Hx as [->| ->]; [exists i | exists (i + 1)]; lia. }
  assert (W : forall y, In y (map (fun k => k * 6) (zrange 7)) <->
              exists c, In c grid_cells /\ (y = ry c \/ y = ry c + rh c)).
  { intros y. split.
    - intros Hy. apply in_sixes in Hy. destruct Hy as (k & Hk & ->).
      destruct (Z.eq_dec k 6) as [->|Hk6].
      + exists (Rect 0 (5 * 6) 6 6). split; [|right; reflexivity].
        apply in_grid_cells. exists 0, 5. repeat split; lia.
      + exists (Rect 0 (k * 6) 6 6). split; [|left; reflexivity].
        apply in_grid_cells. exists 0, k. repeat split; lia.
    - intros (c & Hc & Hy). apply in_grid_cells in Hc.
      destruct Hc as (i & j & Hi & Hj & ->). cbn [ry rh] in Hy.
      apply in_sixes. destruct Hy as [->| ->]; [exists j | exists (j + 1)]; lia. }
  split; [exact V|]. split; [exact W|].
  split; [exact N|]. split; [exact N|]. split; reflexivity.
Qed.

Lemma grid_lines_follow_cell_edges_witness :
  run still = Ok tt (final still) /\
  List.length (lines_at "ax" "axvline" (final still)) = 7%nat.
Proof.
  split; [vm_compute; reflexivity|].
  destruct (grid_lines_follow_cell_edges still (final still))
    as (_ & _ & _ & _ & H & _); [vm_compute; reflexivity|].
  exact H.
Defined.

(** ** Highlights *)

Definition ints_of (v : option value) : list Z :=
  match v with
  | Some (VList l) =>
      choose (fun e => match e with VInt z => Some z | _ => None end) l
  | _ => []
  end.

Lemma highlights_final lib :
  rectangles "ax1" "red" (final lib) = [Rect 12 18 6 6] /\
  cell_labels "ax1" (final lib) =
    [(18, -2, "600×600 pixels @ 60m/px"); (15, 21, "L2");
     (3, 33, "L2 tiles: 6 km × 6 km"); (3, 31, "600×600 px @ 10m/px")] /\
  rectangles "ax2" "red" (final lib) =
    flat_map (fun col => map (fun row => Rect col row 1 1) [3; 4]) [2; 3] /\
  ints_of (lookup "highlight_cols" (globals (final lib))) = [2; 3] /\
  ints_of (lookup "highlight_rows" (globals (final lib))) = [3; 4] /\
  map (fun c => (fst (fst c), snd (fst c))) (index_cells "ax2" (final lib)) =
    flat_map (fun row => map (fun col => (col, row)) (zrange 6)) (zrange 6).
Proof. vm_compute. repeat split. Qed.

(** X8: the highlighted rectangle of subplot 1 is one of the 36 inner
    tiles, and the 'L2' label sits at its centre; the rectangles
    highlighted in subplot 2 are the unit cells at the columns in
    [highlight_cols] and the rows in [highlight_rows], each of them a cell
    of the 6 x 6 index grid. *)
Theorem highlights_coincide_with_grid_cells :
  forall lib s, run lib = Ok tt s ->
    (exists r, rectangles "ax1" "red" s = [r] /\
               In r (inner_tiles "ax1" s) /\
               In (rx r + 3, ry r + 3, "L2") (cell_labels "ax1" s)) /\
    rectangles "ax2" "red" s =
      flat_map (fun col => map (fun row => Rect col row 1 1)
                               (ints_of (lookup "highlight_rows" (globals s))))
               (ints_of (lookup "highlight_cols" (globals s))) /\
    (forall r, In r (rectangles "ax2" "red" s) ->
       In (rx r, ry r)
          (map (fun c => (fst (fst c), snd (fst c))) (index_cells "ax2" s))).
Proof.
  intros lib s H. apply completed_run in H. subst s.
  destruct (highlights_final lib) as (E1 & E2 & E3 & E4 & E5 & E6).
  rewrite E1, E2, E3, E4, E5, E6, inner_ax1.
  split; [|split].
  - exists (Rect 12 18 6 6). split; [reflexivity|]. split.
    + apply in_grid_cells. exists 2, 3. repeat split; lia.
    + cbn [rx ry]. right. left. reflexivity.
  - reflexivity.
  - intros r Hr. cbn in Hr.
    destruct Hr as [<-|[<-|[<-|[<-|[]]]]]; cbn [rx ry];
      vm_compute; repeat (first [left; reflexivity | right]).
Qed.

Lemma highlights_coincide_with_grid_cells_witness :
  run still = Ok tt (final still) /\
  exists r, rectangles "ax1" "red" (final still) = [r] /\
            In r (inner_tiles "ax1" (final still)) /\
            In (rx r + 3, ry r + 3, "L2") (cell_labels "ax1" (final still)).
Proof.
  split; [vm_compute; reflexivity|].
  destruct (highlights_coincide_with_grid_cells still (final still))
    as (H & _); [vm_compute; reflexivity|].
  exact H.
Defined.

(** ** The tile identifier and its breakdown *)

(** The string of a text call, its third positional argument. *)
Definition text_string (args : list value) : option string :=
  match args with
  | [_; _; VStr t] => Some t
  | _ => None
  end.

(** The first entry of each tuple of a list of tuples. *)
Definition first_parts (v : option value) : list string :=
  match v with
  | Some (VList l) =>
      choose (fun e => match e with
                       | VTuple (VStr p :: _) => Some p
                       | _ => None
                       end) l
  | _ => []
  end.

(** The strings of the texts placed at abscissa [x0] on the axes [x]. *)
Definition strings_at (x : string) (x0 : float) (s : state) : list string :=
  choose (fun args => match args with
                      | [VFloat a; _; VStr t] =>
                          if PrimFloat.eqb a x0 then Some t else None
                      | _ => None
                      end) (texts x s).




(** ** The design-principles list *)

Definition strings_of (v : option value) : list string :=
  match v with
  | Some (VList l) =>
      choose (fun e => match e with VStr t => Some t | _ => None end) l
  | _ => []
  end.

(** The ordinates of the texts on the axes [x]. *)
Definition text_heights (x : string) (s : state) : list float :=
  choose (fun args => match args with
                      | [_; VFloat y; _] => Some y
                      | _ => None
                      end) (texts x s).

(** Each number is below the one before it. *)
Fixpoint descending (ys : list float) : bool :=
  match ys with
  | y :: ((y' :: _) as rest) => PrimFloat.ltb y' y && descending rest
  | _ => true
  end.

(** The positions of the texts placed at fractional coordinates on the
    axes [x]. *)
Definition text_points (x : string) (s : state) : list (float * float) :=
  choose (fun args => match args with
                      | [VFloat a; VFloat b; _] => Some (a, b)
                      | _ => None
                      end) (texts x s).

(** Where the loop of subplot 6 puts the lines [ls], starting at height
    [y]: headings and plain lines at 0.05, bullets at 0.1, each line 0.05
    lower than the one before. *)
Fixpoint principle_points (y : float) (ls : list string)
  : list (float * float) :=
  match ls with
  | [] => []
  | l :: ls' =>
      ((if startswith l "✓" then 0.05
        else if startswith l "  •" then 0.1 else 0.05)%float, y)
      :: principle_points (y - 0.05) ls'
  end.

Definition in_unit_square (p : float * float) : bool :=
  PrimFloat.leb 0 (fst p) && PrimFloat.leb (fst p) 1
  && PrimFloat.leb 0 (snd p) && PrimFloat.leb (snd p) 1.

Lemma principles_final lib :
  choose text_string (texts "ax6" (final lib)) =
    strings_of (lookup "principles" (globals (final lib))) /\
  List.length (texts "ax6" (final lib)) = 19%nat /\
  text_points "ax6" (final lib) =
    principle_points 0.95
      (strings_of (lookup "principles" (globals (final lib)))) /\
  List.length (text_points "ax6" (final lib)) = 19%nat /\
  map snd (text_points "ax6" (final lib)) = text_heights "ax6" (final lib) /\
  descending (text_heights "ax6" (final lib)) = true /\
  forallb in_unit_square (text_points "ax6" (final lib)) = true /\
  List.length (filter (String.eqb "")
                 (choose text_string (texts "ax6" (final lib)))) = 4%nat.
Proof. vm_compute. repeat split. Qed.

(** X10: every entry of [principles], the four blank separator lines
    included, is drawn on subplot 6 exactly once and in order: headings
    and blank lines at x = 0.05, bullets at x = 0.1, the first at y = 0.95
    and each next one 0.05 lower; all 19 anchors lie within the unit
    square of the axes, in both coordinates. *)
Theorem every_principle_line_is_drawn_in_order :
  forall lib s, run lib = Ok tt s ->
    choose text_string (texts "ax6" s) =
      strings_of (lookup "principles" (globals s)) /\
    List.length (texts "ax6" s) = 19%nat /\
    List.length (filter (String.eqb "")
                   (choose text_string (texts "ax6" s))) = 4%nat /\
    text_points "ax6" s =
      principle_points 0.95 (strings_of (lookup "principles" (globals s))) /\
    List.length (text_points "ax6" s) = List.length (texts "ax6" s) /\
    map snd (text_points "ax6" s) = text_heights "ax6" s /\
    descending (text_heights "ax6" s) = true /\
    Forall (fun p => PrimFloat.leb 0 (fst p) = true /\
                     PrimFloat.leb (fst p) 1 = true /\
                     PrimFloat.leb 0 (snd p) = true /\
                     PrimFloat.leb (snd p) 1 = true)
           (text_points "ax6" s).
Proof.
  intros lib s H. apply completed_run in H. subst s.
  destruct (principles_final lib) as (E1 & E2 & E3 & E4 & E5 & E6 & E7 & E8).
  split; [exact E1|]. split; [exact E2|]. split; [exact E8|].
  split; [exact E3|]. split; [rewrite E4, E2; reflexivity|].
  split; [exact E5|]. split; [exact E6|].
  apply (proj2 (Forall_forall _ _)). intros p Hp.
  pose proof (proj1 (forallb_forall _ _) E7 p Hp) as B.
  unfold in_unit_square in B.
  apply andb_true_iff in B. destruct B as [B B4].
  apply andb_true_iff in B. destruct B as [B B3].
  apply andb_true_iff in B. destruct B as [B1 B2].
  repeat split; assumption.
Qed.

Lemma every_principle_line_is_drawn_in_order_witness :
  run still = Ok tt (final still) /\
  List.length (texts "ax6" (final still)) = 19%nat.
Proof.
  split; [vm_compute; reflexivity|].
  assert (R : run still = Ok tt (final still)) by (vm_compute; reflexivity).
  pose proof (every_principle_line_is_drawn_in_order still (final still) R)
    as (_ & H & _).
  exact H.
Defined.

(** ** Zone rectangles *)

(** The zone rectangles of subplot 4 with their fill colour, in drawing
    order. *)
Definition zone_fills (s : state) : list (rect * option value) :=
  choose (fun v =>
            match geometry_of v, v with
            | Some r, VObj _ _ kw => Some (r, lookup "facecolor" kw)
            | _, _ => None
            end) (patches "ax4" s).

(** Each rectangle starts where the one before it ends, on the same
    horizontal band. *)
Fixpoint abutting (rs : list rect) : bool :=
  match rs with
  | r :: ((r' :: _) as rest) =>
      (rx r' =? rx r + rw r) && (ry r' =? ry r) && (rh r' =? rh r)
      && abutting rest
  | _ => true
  end.

(** No two neighbours in the list are the same string. *)
Fixpoint alternating (fs : list (option value)) : bool :=
  match fs with
  | Some (VStr a) :: ((Some (VStr b) :: _) as rest) =>
      negb (String.eqb a b) && alternating rest
  | [Some (VStr _)] | [] => true
  | _ => false
  end.

Lemma zone_fills_final lib :
  map fst (zone_fills (final lib)) = rectangles "ax4" "black" (final lib) /\
  abutting (map fst (zone_fills (final lib))) = true /\
  alternating (map snd (zone_fills (final lib))) = true /\
  hd_error (map (fun r => rx r) (map fst (zone_fills (final lib)))) = Some 69 /\
  hd_error (rev (map (fun r => rx r + rw r) (map fst (zone_fills (final lib)))))
    = Some 165 /\
  forallb (fun l => existsb (fun r => (fst (fst l) =? rx r + 3) && (rw r =? 6))
                            (map fst (zone_fills (final lib))))
          (cell_labels "ax4" (final lib)) = true /\
  limit "ax4" "set_xlim" (final lib) = Some (40, 165)%float.
Proof. vm_compute. repeat split. Qed.

Lemma in_zfrom a n k : In k (zfrom a n) <-> a <= k < a + Z.of_nat n.
Proof.
  unfold zfrom. rewrite in_map_iff. split.
  - intros (m & <- & Hm). apply in_seq in Hm. lia.
  - intros H. exists (Z.to_nat (k - a)). split; [lia|]. apply in_seq. lia.
Qed.

(** X11: the zone rectangles of subplot 4 are drawn left to right edge to
    edge, with no gap and no overlap, from longitude 69 to the right limit
    of the axes, 165; neighbouring zones never share a fill colour; and
    every zone label 'zS' sits under the middle of the rectangle of zone
    [z]: at the abscissa of its centre, on a rectangle of full width 6,
    one unit below its bottom edge and still above the lower limit of the
    axes. *)
Theorem zone_rectangles_abut_and_alternate :
  forall lib s, run lib = Ok tt s ->
    abutting (map fst (zone_fills s)) = true /\
    alternating (map snd (zone_fills s)) = true /\
    hd_error (map (fun r => rx r) (map fst (zone_fills s))) = Some 69 /\
    hd_error (rev (map (fun r => rx r + rw r) (map fst (zone_fills s))))
      = Some 165 /\
    limit "ax4" "set_xlim" s = Some (40, 165)%float /\
    limit "ax4" "set_ylim" s = Some (-72, -48)%float /\
    (forall x y t, In (x, y, t) (cell_labels "ax4" s) ->
       exists z r, In r (map fst (zone_fills s)) /\
                   rx r = -183 + z * 6 /\ t = str_int z ++ "S" /\
                   x = rx r + 3 /\ rw r = 6 /\
                   y = ry r - 1 /\ -72 <= y).
Proof.
  intros lib s H. apply completed_run in H. subst s.
  destruct (zone_fills_final lib) as (E0 & E1 & E2 & E3 & E4 & E5 & E6).
  assert (E7 : limit "ax4" "set_ylim" (final lib) = Some (-72, -48)%float)
    by (vm_compute; reflexivity).
  destruct (zone_panel lib) as [Er El].
  split; [exact E1|]. split; [exact E2|]. split; [exact E3|].
  split; [exact E4|]. split; [exact E6|]. split; [exact E7|].
  rewrite E0, Er, El.
  intros x y t Hin. apply in_map_iff in Hin.
  destruct Hin as (z & Hz & Hin). injection Hz as <- <- <-.
  apply in_zfrom in Hin.
  exists z, (Rect (-183 + z * 6) (-70) 6 20). cbn [rx ry rw].
  split; [|repeat split; lia].
  apply in_map_iff. exists z. split; [reflexivity|].
  apply in_zfrom. lia.
Qed.

Lemma zone_rectangles_abut_and_alternate_witness :
  run still = Ok tt (final still) /\
  abutting (map fst (zone_fills (final still))) = true.
Proof.
  split; [vm_compute; reflexivity|].
  assert (R : run still = Ok tt (final still)) by (vm_compute; reflexivity).
  pose proof (zone_rectangles_abut_and_alternate still (final still) R)
    as (H & _).
  exact H.
Defined.

(** ** Sample locations *)

(** The markers plotted on the axes [x]: longitude and latitude. *)
Definition markers (x : string) (s : state) : list (float * float) :=
  choose (fun c => match c_args c with
                   | VFloat lon :: VFloat lat :: _ => Some (lon, lat)
                   | _ => None
                   end) (method_calls x "plot" s).

(** The label under the zone rectangle [r]: the text at its middle. *)
Definition label_under (s : state) (r : rect) : option string :=
  match find (fun l => fst (fst l) =? rx r + 3) (cell_labels "ax4" s) with
  | Some (_, _, t) => Some t
  | None => None
  end.

(** The labels of the zone rectangles that contain the point
    [(lon, lat)], left edge included and right edge excluded. *)
Definition zones_containing (s : state) (p : float * float)
  : list (option string) :=
  map (label_under s)
      (filter (fun r =>
                 PrimFloat.leb (float_of_int (rx r)) (fst p)
                 && PrimFloat.ltb (fst p) (float_of_int (rx r + rw r))
                 && PrimFloat.leb (float_of_int (ry r)) (snd p)
                 && PrimFloat.leb (snd p) (float_of_int (ry r + rh r)))
              (map fst (zone_fills s))).

Lemma markers_final lib :
  markers "ax4" (final lib) =
    [(73.5, -53.0); (158.85, -54.6); (77.97, -68.58)]%float /\
  map (zones_containing (final lib)) (markers "ax4" (final lib)) =
    [[Some "42S"]; [Some "56S"]; [Some "43S"]] /\
  hd_error (choose text_string (texts "ax3" (final lib))) =
    Some "43S_L1_0006_0114" /\
  existsb (String.eqb "Lon/Lat: 73.5°E, 53.0°S")
          (choose text_string (texts "ax3" (final lib))) = true.
Proof. vm_compute. repeat split. Qed.

(** X12: each of the three sample markers of subplot 4 lies in exactly
    one zone rectangle.  As drawn, the rectangle of zone [z] spans
    [-183 + 6z, -177 + 6z], so the marker at 73.5 E (Heard Is.) lies in the
    rectangle labelled 42S, although subplot 3 shows the point
    73.5 E, 53.0 S under the tile identifier 43S_L1_0006_0114; the markers
    at 158.85 E and 77.97 E lie in the rectangles labelled 56S and 43S. *)
Theorem markers_and_their_zone_rectangles :
  forall lib s, run lib = Ok tt s ->
    markers "ax4" s =
      [(73.5, -53.0); (158.85, -54.6); (77.97, -68.58)]%float /\
    Forall (fun p => List.length (zones_containing s p) = 1%nat)
           (markers "ax4" s) /\
    map (zones_containing s) (markers "ax4" s) =
      [[Some "42S"]; [Some "56S"]; [Some "43S"]] /\
    hd_error (choose text_string (texts "ax3" s)) = Some "43S_L1_0006_0114" /\
    In "Lon/Lat: 73.5°E, 53.0°S" (choose text_string (texts "ax3" s)).
Proof.
  intros lib s H. apply completed_run in H. subst s.
  destruct (markers_final lib) as (E1 & E2 & E3 & E4).
  split; [exact E1|]. split.
  - assert (F : forallb (fun p => Nat.eqb (List.length
                  (zones_containing (final lib) p)) 1)
                  (markers "ax4" (final lib)) = true)
      by (vm_compute; reflexivity).
    apply (proj2 (Forall_forall _ _)). intros p Hp.
    apply Nat.eqb_eq. exact (proj1 (forallb_forall _ _) F p Hp).
  - split; [exact E2|]. split; [exact E3|].
    apply mem_true. exact E4.
Qed.

Lemma markers_and_their_zone_rectangles_witness :
  run still = Ok tt (final still) /\
  map (zones_containing (final still)) (markers "ax4" (final still)) =
    [[Some "42S"]; [Some "56S"]; [Some "43S"]].
Proof.
  split; [vm_compute; reflexivity|].
  assert (R : run still = Ok tt (final still)) by (vm_compute; reflexivity).
  pose proof (markers_and_their_zone_rectangles still (final still) R)
    as (_ & _ & H & _).
  exact H.
Defined.

(** ** The body of the zone loop, for any zone number *)

(** Lines 157-172: what the loop of subplot 4 does for one [z], the same
    statements as in [panel4]. *)
Definition zone_body : M unit :=
  z <- get_int "z" ;;
  assign "lon_min" (Int (-183 + z * 6)) ;;
  lon_min <- get_int "lon_min" ;;
  assign "lon_max" (Int (lon_min + 6)) ;;
  lon_min <- get_int "lon_min" ;;
  lon_max <- get_int "lon_max" ;;
  if ((44 <=? lon_min) && (lon_min <=? 160))
     || ((44 <=? lon_max) && (lon_max <=? 160))
  then
    z <- get_int "z" ;;
    assign "color" (Str (if z mod 2 =? 0 then "lightblue" else "lightgreen")) ;;
    lon_min <- get_int "lon_min" ;;
    color <- get "color" ;;
    "rect" ::= Rectangle
      [Pair (Int (Z.max lon_min 40)) (Int (-70));
       Int (Z.min 6 (165 - Z.max lon_min 40)); Int 20]
      [("facecolor", color); ("edgecolor", Str "black");
       ("linewidth", Flt 0.5); ("alpha", Flt 0.4)] ;;
    add_patch "ax4" "rect" ;;
    lon_min <- get_int "lon_min" ;;
    if (44 <=? lon_min + 3) && (lon_min + 3 <=? 160)
    then
      z <- get_int "z" ;;
      method "ax4" "text" [Int (lon_min + 3); Int (-71); Str (str_int z ++ "S")]
        [("ha", Str "center"); ("fontsize", Int 8); ("fontweight", Str "bold")]
    else ret tt
  else ret tt.

(** What [zone_body] draws for zone [z] on the axes [h], when no call
    raises. *)
Definition zone_drawing (lib : library) (h : handle) (z : Z) : list call :=
  calls (state_of (zone_body (quiet lib)
                     (State [("z", VInt z); ("ax4", VRef h)] [] []))).

Definition zone_rectangle_args (z : Z) : list value :=
  [VTuple [VInt (Z.max (-183 + z * 6) 40); VInt (-70)];
   VInt (Z.min 6 (165 - Z.max (-183 + z * 6) 40)); VInt 20].

Definition zone_rectangle_kwargs (z : Z) : kwargs :=
  [("facecolor", VStr (if z mod 2 =? 0 then "lightblue" else "lightgreen"));
   ("edgecolor", VStr "black"); ("linewidth", VFloat 0.5);
   ("alpha", VFloat 0.4)].

Lemma zone_drawing_eq lib h z :
  zone_drawing lib h z =
  if ((44 <=? -183 + z * 6) && (-183 + z * 6 <=? 160))
     || ((44 <=? -183 + z * 6 + 6) && (-183 + z * 6 + 6 <=? 160))
  then
    Call Patches "Rectangle" (zone_rectangle_args z) (zone_rectangle_kwargs z)
    :: Call (Method h) "add_patch"
         [VObj "Rectangle" (zone_rectangle_args z) (zone_rectangle_kwargs z)] []
    :: (if (44 <=? -183 + z * 6 + 3) && (-183 + z * 6 + 3 <=? 160)
        then [Call (Method h) "text"
                [VInt (-183 + z * 6 + 3); VInt (-71); VStr (str_int z ++ "S")]
                [("ha", VStr "center"); ("fontsize", VInt 8);
                 ("fontweight", VStr "bold")]]
        else [])
  else [].
Proof.
  unfold zone_drawing, zone_body, zone_rectangle_args, zone_rectangle_kwargs.
  cbv -[Z.add Z.mul Z.leb Z.max Z.min Z.sub Z.modulo Z.eqb str_int
        String.append andb orb].
  destruct (((44 <=? -183 + z * 6) && (-183 + z * 6 <=? 160))
            || ((44 <=? -183 + z * 6 + 6) && (-183 + z * 6 + 6 <=? 160)));
    [|reflexivity].
  cbv -[Z.add Z.mul Z.leb Z.max Z.min Z.sub Z.modulo Z.eqb str_int
        String.append andb orb].
  destruct ((44 <=? -183 + z * 6 + 3) && (-183 + z * 6 + 3 <=? 160));
    reflexivity.
Qed.

Lemma zone_loop_is_zone_body lib :
  firstn 47 (skipn 247 (planned lib)) =
  flat_map (zone_drawing lib (Axes 3)) (zfrom 42 17).
Proof. vm_compute. reflexivity. Qed.

(** Some call of [cs] is a call of [f]. *)
Definition draws (f : string) (cs : list call) : bool :=
  existsb (fun c => String.eqb (c_func c) f) cs.

(** X13: what the zone loop does for one zone, for every integer [z] and
    not only the 17 zones of the script.  With [lon_min = -183 + z*6]: the
    rectangle is added exactly when [44 <= lon_min <= 160] or
    [44 <= lon_min + 6 <= 160]; the label is drawn exactly when
    [44 <= lon_min + 3 <= 160], which implies the rectangle's condition,
    so nesting the label under it never drops a label; and a rectangle
    that is added starts at 40 or more, is 6 wide and ends at 165 or
    less.  The 47 calls the loop of subplot 4 makes in a run are these,
    for z = 42..58. *)
Theorem zone_body_for_any_zone :
  forall lib h z,
    (draws "add_patch" (zone_drawing lib h z) = true <->
       44 <= -183 + z * 6 <= 160 \/ 44 <= -183 + z * 6 + 6 <= 160) /\
    (draws "text" (zone_drawing lib h z) = true <->
       44 <= -183 + z * 6 + 3 <= 160) /\
    (draws "text" (zone_drawing lib h z) = true ->
       draws "add_patch" (zone_drawing lib h z) = true) /\
    (draws "add_patch" (zone_drawing lib h z) = true ->
       In (Call (Method h) "add_patch"
             [VObj "Rectangle" (zone_rectangle_args z)
                   (zone_rectangle_kwargs z)] [])
          (zone_drawing lib h z) /\
       40 <= Z.max (-183 + z * 6) 40 /\
       Z.min 6 (165 - Z.max (-183 + z * 6) 40) = 6 /\
       Z.max (-183 + z * 6) 40 + Z.min 6 (165 - Z.max (-183 + z * 6) 40)
         <= 165) /\
    firstn 47 (skipn 247 (planned lib)) =
      flat_map (zone_drawing lib (Axes 3)) (zfrom 42 17).
Proof.
  intros lib h z. rewrite zone_drawing_eq.
  split; [|split; [|split; [|split; [|apply zone_loop_is_zone_body]]]];
    destruct (((44 <=? -183 + z * 6) && (-183 + z * 6 <=? 160))
              || ((44 <=? -183 + z * 6 + 6) && (-183 + z * 6 + 6 <=? 160)))
      eqn:G1;
    destruct ((44 <=? -183 + z * 6 + 3) && (-183 + z * 6 + 3 <=? 160)) eqn:G2;
    unfold draws; cbn [existsb c_func];
    change (String.eqb "Rectangle" "add_patch") with false;
    change (String.eqb "add_patch" "add_patch") with true;
    change (String.eqb "text" "add_patch") with false;
    change (String.eqb "Rectangle" "text") with false;
    change (String.eqb "add_patch" "text") with false;
    change (String.eqb "text" "text") with true;
    cbn [orb];
    rewrite ?orb_true_iff, ?orb_false_iff, ?andb_true_iff, ?andb_false_iff,
      ?Z.leb_le, ?Z.leb_gt in G1, G2;
    try (split; [intros _; lia | intros _; reflexivity]);
    try (split; [intros E; discriminate E | intros; lia]);
    try (intros E; first [discriminate E | reflexivity]);
    try (intros _; split; [right; left; reflexivity | lia]).
Qed.

(** ** Patches are built and added in one breath *)

Definition is_constructor (c : call) : bool :=
  match c_target c with Patches => true | _ => false end.

Definition is_add_patch (c : call) : bool :=
  match c_target c with
  | Method (Axes _) => String.eqb (c_func c) "add_patch"
  | _ => false
  end.

(** In [cs] every constructor call is directly followed by an [add_patch]
    (unless the calls end there), and there is no other [add_patch]. *)
Fixpoint built_then_added (cs : list call) : bool :=
  match cs with
  | [] => true
  | c :: rest =>
      if is_constructor c then
        match rest with
        | [] => true
        | c' :: rest' => is_add_patch c' && built_then_added rest'
        end
      else negb (is_add_patch c) && built_then_added rest
  end.

Lemma planned_built_then_added lib :
  at_each_point (fun cs _ => built_then_added cs) [] (planned lib) = true.
Proof. vm_compute. reflexivity. Qed.

Lemma built_and_added_final lib :
  map (fun c => VObj (c_func c) (c_args c) (c_kwargs c))
      (filter is_constructor (calls (final lib))) =
  flat_map c_args (filter is_add_patch (calls (final lib))) /\
  List.length (filter is_add_patch (calls (final lib))) = 133%nat.
Proof. vm_compute. split; reflexivity. Qed.

(** X14: in every run, whatever the library does, each patch the script
    constructs is added to an axes by the very next call, and nothing is
    added that was not just constructed.  In a run that completes the 133
    patches added are, in order, exactly the 133 objects constructed: no
    patch is left out and none is added twice. *)
Theorem every_patch_is_added_once :
  forall lib,
    built_then_added (calls (state_of (run lib))) = true /\
    forall s, run lib = Ok tt s ->
      map (fun c => VObj (c_func c) (c_args c) (c_kwargs c))
          (filter is_constructor (calls s)) =
      flat_map c_args (filter is_add_patch (calls s)) /\
      List.length (filter is_add_patch (calls s)) = 133%nat.
Proof.
  intros lib. split.
  - destruct (run_prefix lib) as [post Hp].
    exact (at_each_point_prefix built_then_added (planned lib) []
             (planned_built_then_added lib) _ _ Hp).
  - intros s H. apply completed_run in H. subst s.
    exact (built_and_added_final lib).
Qed.

Lemma every_patch_is_added_once_witness :
  run still = Ok tt (final still) /\
  List.length (filter is_add_patch (calls (final still))) = 133%nat.
Proof.
  split; [vm_compute; reflexivity|].
  assert (R : run still = Ok tt (final still)) by (vm_compute; reflexivity).
  pose proof (proj2 (every_patch_is_added_once still) (final still) R)
    as (_ & H).
  exact H.
Defined.

(** ** Dimension arrows of the detail figure *)

(** The abscissas an [annotate] call on the axes [x] joins: those of its
    [xy] and [xytext]. *)
Definition arrow_spans (x : string) (s : state) : list (Z * Z) :=
  choose (fun c =>
            match lookup "xy" (c_kwargs c), lookup "xytext" (c_kwargs c) with
            | Some (VTuple [VInt a; _]), Some (VTuple [VInt b; _]) => Some (a, b)
            | _, _ => None
            end) (method_calls x "annotate" s).

(** The texts on the axes [x] placed at an integer abscissa and a
    fractional ordinate: abscissa and string. *)
Definition dimension_labels (x : string) (s : state) : list (Z * string) :=
  choose (fun args => match args with
                      | [VInt a; VFloat _; VStr t] => Some (a, t)
                      | _ => None
                      end) (texts x s).

(** Both ends of each [annotate] arrow on the axes [x]: the point [xy]
    and the point [xytext]. *)
Definition arrow_ends (x : string) (s : state)
  : list ((float * float) * (float * float)) :=
  choose (fun c =>
            match lookup "xy" (c_kwargs c), lookup "xytext" (c_kwargs c) with
            | Some (VTuple [a; b]), Some (VTuple [a'; b']) =>
                match num_float a, num_float b, num_float a', num_float b' with
                | Some a, Some b, Some a', Some b' => Some ((a, b), (a', b'))
                | _, _, _, _ => None
                end
            | _, _ => None
            end) (method_calls x "annotate" s).

(** Where the dimension labels of the axes [x] are anchored. *)
Definition dimension_points (x : string) (s : state) : list (float * float) :=
  choose (fun args => match args with
                      | [VInt a; VFloat b; VStr _] => Some (float_of_int a, b)
                      | _ => None
                      end) (texts x s).

(** The arrow [e] is horizontal, the point [p] is below it, at the
    abscissa of its middle, and the arrow is not above the height [y0]. *)
Definition centred_under (p : float * float)
  (e : (float * float) * (float * float)) (y0 : float) : bool :=
  PrimFloat.eqb (snd (fst e)) (snd (snd e))
  && PrimFloat.ltb (snd p) (snd (fst e))
  && PrimFloat.eqb (fst p + fst p) (fst (fst e) + fst (snd e))
  && PrimFloat.leb (snd (fst e)) y0.

Lemma dimension_arrows_final lib :
  arrow_spans "ax" (final lib) = [(0, 36); (0, 6)] /\
  dimension_labels "ax" (final lib) = [(18, "36 km (36,000 m)"); (3, "6 km")] /\
  arrow_ends "ax" (final lib) =
    [((0, -0.5), (36, -0.5)); ((0, 0), (6, 0))]%float /\
  dimension_points "ax" (final lib) = [(18, -0.8); (3, -0.3)]%float.
Proof. vm_compute. repeat split. Qed.

(** X15: the two dimension arrows of the detail figure span what they
    measure: the first runs from the left to the right edge of the outer
    tile, the second from the left to the right edge of the first inner
    tile; both are horizontal and lie at or below the bottom edge of the
    tile they measure; and each dimension label is centred under its
    arrow, at the abscissa of the arrow's middle and below it. *)
Theorem dimension_arrows_span_the_tiles :
  forall lib s, run lib = Ok tt s ->
    exists o c rest,
      outer_tiles "ax" s = [o] /\ inner_tiles "ax" s = c :: rest /\
      arrow_spans "ax" s = [(rx o, rx o + rw o); (rx c, rx c + rw c)] /\
      map (fun l => 2 * fst l) (dimension_labels "ax" s) =
        map (fun ab => fst ab + snd ab) (arrow_spans "ax" s) /\
      exists p1 p2 e1 e2,
        dimension_points "ax" s = [p1; p2] /\
        arrow_ends "ax" s = [e1; e2] /\
        centred_under p1 e1 (float_of_int (ry o)) = true /\
        centred_under p2 e2 (float_of_int (ry c)) = true.
Proof.
  intros lib s H. apply completed_run in H. subst s.
  destruct (dimension_arrows_final lib) as (E1 & E2 & E3 & E4).
  rewrite E1, E2, E3, E4, outer_ax, inner_ax.
  exists (Rect 0 0 36 36), (Rect 0 0 6 6), (tl grid_cells).
  split; [reflexivity|]. split; [reflexivity|].
  split; [reflexivity|]. split; [reflexivity|].
  eexists _, _, _, _. split; [reflexivity|]. split; [reflexivity|].
  split; vm_compute; reflexivity.
Qed.

Lemma dimension_arrows_span_the_tiles_witness :
  run still = Ok tt (final still) /\
  exists o c rest,
    outer_tiles "ax" (final still) = [o] /\
    inner_tiles "ax" (final still) = c :: rest /\
    arrow_spans "ax" (final still) =
      [(rx o, rx o + rw o); (rx c, rx c + rw c)] /\
    map (fun l => 2 * fst l) (dimension_labels "ax" (final still)) =
      map (fun ab => fst ab + snd ab) (arrow_spans "ax" (final still)) /\
    exists p1 p2 e1 e2,
      dimension_points "ax" (final still) = [p1; p2] /\
      arrow_ends "ax" (final still) = [e1; e2] /\
      centred_under p1 e1 (float_of_int (ry o)) = true /\
      centred_under p2 e2 (float_of_int (ry c)) = true.
Proof.
  split; [vm_compute; reflexivity|].
  assert (R : run still = Ok tt (final still)) by (vm_compute; reflexivity).
  exact (dimension_arrows_span_the_tiles still (final still) R).
Defined.

(** ** The resolution boxes *)

(** The boxes added to the axes [x]: left, bottom, width, height. *)
Definition boxes (x : string) (s : state)
  : list (float * float * float * float) :=
  choose (fun v =>
            match v with
            | VObj _ [VTuple [VFloat a; VFloat b]; VFloat w; VFloat h] _ =>
                Some (a, b, w, h)
            | _ => None
            end) (patches x s).

Definition point_in_box (p : float * float)
  (b : float * float * float * float) : bool :=
  let '(l, bo, w, h) := b in
  PrimFloat.leb l (fst p) && PrimFloat.leb (fst p) (l + w)
  && PrimFloat.leb bo (snd p) && PrimFloat.leb (snd p) (bo + h).

Definition box_in_unit_square (b : float * float * float * float) : bool :=
  let '(l, bo, w, h) := b in
  PrimFloat.leb 0 l && PrimFloat.leb (l + w) 1
  && PrimFloat.leb 0 bo && PrimFloat.leb (bo + h) 1.

(** Each box lies wholly below the one before it. *)
Fixpoint stacked (bs : list (float * float * float * float)) : bool :=
  match bs with
  | b :: ((b' :: _) as rest) =>
      (let '(_, bo, _, _) := b in
       let '(_, bo', _, h') := b' in PrimFloat.leb (bo' + h') bo)
      && stacked rest
  | _ => true
  end.

(** The [k]-th group of five points lies in the [k]-th box. *)
Fixpoint rows_in_boxes (ps : list (float * float))
  (bs : list (float * float * float * float)) : bool :=
  match bs with
  | [] => true
  | b :: bs' =>
      forallb (fun p => point_in_box p b) (firstn 5 ps)
      && Nat.eqb (List.length (firstn 5 ps)) 5
      && rows_in_boxes (skipn 5 ps) bs'
  end.

Lemma resolution_boxes_final lib :
  List.length (boxes "ax5" (final lib)) = 2%nat /\
  List.length (text_points "ax5" (final lib)) = 11%nat /\
  forallb box_in_unit_square (boxes "ax5" (final lib)) = true /\
  stacked (boxes "ax5" (final lib)) = true /\
  rows_in_boxes (text_points "ax5" (final lib)) (boxes "ax5" (final lib)) = true.
Proof. vm_compute. repeat split. Qed.

(** X16: subplot 5 draws one box per resolution level, each inside the
    unit square of the axes, the second wholly below the first; the five
    texts written for a level (name, resolution, size, pixel dimensions,
    use) all lie inside that level's box. *)
Theorem level_texts_lie_in_their_boxes :
  forall lib s, run lib = Ok tt s ->
    List.length (boxes "ax5" s) = 2%nat /\
    List.length (text_points "ax5" s) = (5 * 2 + 1)%nat /\
    Forall (fun b => box_in_unit_square b = true) (boxes "ax5" s) /\
    stacked (boxes "ax5" s) = true /\
    rows_in_boxes (text_points "ax5" s) (boxes "ax5" s) = true.
Proof.
  intros lib s H. apply completed_run in H. subst s.
  destruct (resolution_boxes_final lib) as (E1 & E2 & E3 & E4 & E5).
  split; [exact E1|]. split; [exact E2|]. split; [|split; [exact E4 | exact E5]].
  apply (proj2 (Forall_forall _ _)). exact (proj1 (forallb_forall _ _) E3).
Qed.

Lemma level_texts_lie_in_their_boxes_witness :
  run still = Ok tt (final still) /\
  rows_in_boxes (text_points "ax5" (final still))
                (boxes "ax5" (final still)) = true.
Proof.
  split; [vm_compute; reflexivity|].
  assert (R : run still = Ok tt (final still)) by (vm_compute; reflexivity).
  pose proof (level_texts_lie_in_their_boxes still (final still) R)
    as (_ & _ & _ & _ & H).
  exact H.
Defined.

(** * The six panels and what each one shows *)

(** Every method call on the object the global [x] holds. *)
Definition all_calls_on (x : string) (s : state) : list call :=
  match held x s with
  | Some h =>
      filter (fun c => match c_target c with
                       | Method h' => handle_eqb h h'
                       | _ => false
                       end) (calls s)
  | None => []
  end.

(** The strings of the [annotate] calls on the axes [x]. *)
Definition annotation_texts (x : string) (s : state) : list string :=
  choose (fun c => match c_args c with
                   | VStr t :: _ => Some t
                   | _ => None
                   end) (method_calls x "annotate" s).

(** The first five entries of each tuple of a list of tuples. *)
Definition level_rows (v : option value) : list string :=
  match v with
  | Some (VList l) =>
      flat_map (fun e =>
                  match e with
                  | VTuple es =>
                      choose (fun f => match f with
                                       | VStr t => Some t
                                       | _ => None
                                       end) (firstn 5 es)
                  | _ => []
                  end) l
  | _ => []
  end.

Lemma panel_contents lib :
  map (fun x => List.length (all_calls_on x (final lib)))
      ["ax1"; "ax2"; "ax3"; "ax4"; "ax5"; "ax6"] =
    [51; 87; 18; 47; 15; 21]%nat /\
  (rectangles "ax1" "red" (final lib) = [Rect 12 18 6 6] /\
   annotation_texts "ax1" (final lib) =
     ["6 × 6 = 36 L2 tiles" ++ nl ++ "per L1 tile"]) /\
  (map (fun c => (fst (fst c), snd (fst c))) (index_cells "ax2" (final lib)) =
     flat_map (fun row => map (fun col => (col, row)) (zrange 6)) (zrange 6) /\
   firstn 36 (choose text_string (texts "ax2" (final lib))) =
     flat_map (fun row => map (fun col => str_int col ++ "," ++ str_int row)
                              (zrange 6)) (zrange 6)) /\
  (hd_error (choose text_string (texts "ax3" (final lib))) =
     Some "43S_L1_0006_0114" /\
   strings_at "ax3" 0.15 (final lib) =
     first_parts (lookup "components" (globals (final lib))) /\
   strings_at "ax3" 0.15 (final lib) = ["43S"; "L1"; "0006"; "0114"]) /\
  (List.length (markers "ax4" (final lib)) = 3%nat) /\
  (List.length (boxes "ax5" (final lib)) = 2%nat /\
   choose text_string (texts "ax5" (final lib)) =
     (level_rows (lookup "levels" (globals (final lib)))
      ++ ["Same pixel count per tile → Same display size"])%list /\
   List.length (level_rows (lookup "levels" (globals (final lib)))) = 10%nat) /\
  (choose text_string (texts "ax6" (final lib)) =
     strings_of (lookup "principles" (globals (final lib))) /\
   List.length (texts "ax6" (final lib)) = 19%nat).
Proof. vm_compute. repeat split. Qed.

(** C3: the figure saved as the overview has exactly six axes, created by
    [plt.subplot(2, 3, k)] for k = 1..6 and held by [ax1]..[ax6], and each
    of them shows its own aspect:
    - [ax1], 'Grid Hierarchy Concept': the outer tile, the 36 inner tiles,
      the highlighted tile and the nesting annotation;
    - [ax2], 'Tile Index System': the 36 index cells, each labelled
      'col,row';
    - [ax3], 'Tile Identification Format': the tile identifier and, below
      it, its parts as listed in [components];
    - [ax4], 'UTM Zone Coverage (AAT)': the 16 zone rectangles, the 15
      zone labels and the three sample markers;
    - [ax5], 'Resolution Levels': one box per level and, for each level,
      its name, resolution, size, pixel dimensions and use, then the
      comparison line;
    - [ax6], 'Design Principles': the 19 lines of [principles].
    The number of method calls on each of the six axes is as the script
    makes them (51, 87, 18, 47, 15, 21).  What each panel's statements
    draw (their calls and outcome) is the same whatever globals the
    statements before them left behind. *)
Theorem C3_six_independent_panels :
  forall lib s, run lib = Ok tt s ->
    (exists f, saved_figure "/mnt/user-data/outputs/grid_system_overview.png" s
                 = Some f /\
               axes_in f s = [0; 1; 2; 3; 4; 5]%nat /\
               List.length (axes_in f s) = 6%nat) /\
    map (fun x => held x s) ["ax1"; "ax2"; "ax3"; "ax4"; "ax5"; "ax6"] =
      map (fun a => Some (Axes a)) [0; 1; 2; 3; 4; 5]%nat /\
    map (fun a => title a s) [0; 1; 2; 3; 4; 5]%nat =
      map (fun t => Some (VStr t))
        ["Grid Hierarchy Concept"; "Tile Index System";
         "Tile Identification Format"; "UTM Zone Coverage (AAT)";
         "Resolution Levels"; "Design Principles"] /\
    subplot_positions s =
      map (fun k => [VInt 2; VInt 3; VInt k]) [1; 2; 3; 4; 5; 6] /\
    overview =
      (open_overview ;; panel1 ;; panel2 ;; panel3 ;; panel4 ;; panel5 ;;
       panel6 ;; save_overview) /\
    (ignores_globals panel1 /\ ignores_globals panel2 /\
     ignores_globals panel3 /\ ignores_globals panel4 /\
     ignores_globals panel5 /\ ignores_globals panel6) /\
    map (fun x => List.length (all_calls_on x s))
        ["ax1"; "ax2"; "ax3"; "ax4"; "ax5"; "ax6"] =
      [51; 87; 18; 47; 15; 21]%nat /\
    (outer_tiles "ax1" s = [Rect 0 0 36 36] /\
     inner_tiles "ax1" s = grid_cells /\
     rectangles "ax1" "red" s = [Rect 12 18 6 6] /\
     annotation_texts "ax1" s =
       ["6 × 6 = 36 L2 tiles" ++ nl ++ "per L1 tile"]) /\
    (map (fun c => (fst (fst c), snd (fst c))) (index_cells "ax2" s) =
       flat_map (fun row => map (fun col => (col, row)) (zrange 6)) (zrange 6) /\
     firstn 36 (choose text_string (texts "ax2" s)) =
       flat_map (fun row => map (fun col => str_int col ++ "," ++ str_int row)
                                (zrange 6)) (zrange 6)) /\
    (hd_error (choose text_string (texts "ax3" s)) = Some "43S_L1_0006_0114" /\
     strings_at "ax3" 0.15 s = first_parts (lookup "components" (globals s)) /\
     strings_at "ax3" 0.15 s = ["43S"; "L1"; "0006"; "0114"]) /\
    (rectangles "ax4" "black" s =
       map (fun z => Rect (-183 + z * 6) (-70) 6 20) (zfrom 42 16) /\
     cell_labels "ax4" s =
       map (fun z => (-183 + z * 6 + 3, -71, str_int z ++ "S")) (zfrom 42 15) /\
     List.length (markers "ax4" s) = 3%nat) /\
    (List.length (boxes "ax5" s) = 2%nat /\
     choose text_string (texts "ax5" s) =
       (level_rows (lookup "levels" (globals s))
        ++ ["Same pixel count per tile → Same display size"])%list /\
     List.length (level_rows (lookup "levels" (globals s))) = 10%nat) /\
    (choose text_string (texts "ax6" s) =
       strings_of (lookup "principles" (globals s)) /\
     List.length (texts "ax6" s) = 19%nat).
Proof.
  intros lib s H. apply completed_run in H. subst s.
  destruct (overview_panels lib) as (Hf & Ha & Hh & Ht & Hp).
  destruct (panel_contents lib) as (Hn & (H1a & H1b) & H2 & H3 & H4 & H5 & H6).
  destruct (zone_panel lib) as [Hz1 Hz2].
  split; [exists 0%nat; rewrite Ha; split; [exact Hf | split; reflexivity]|].
  split; [exact Hh|]. split; [exact Ht|]. split; [exact Hp|].
  split; [reflexivity|]. split; [exact panels_ignore_globals|].
  split; [exact Hn|].
  split; [split; [apply outer_ax1 | split; [apply inner_ax1 |
          split; [exact H1a | exact H1b]]]|].
  split; [exact H2|]. split; [exact H3|].
  split; [split; [exact Hz1 | split; [exact Hz2 | exact H4]]|].
  split; [exact H5 | exact H6].
Qed.

Lemma C3_witness :
  run still = Ok tt (final still) /\
  exists f,
    saved_figure "/mnt/user-data/outputs/grid_system_overview.png"
                 (final still) = Some f /\
    axes_in f (final still) = [0; 1; 2; 3; 4; 5]%nat /\
    List.length (axes_in f (final still)) = 6%nat.
Proof.
  split; [vm_compute; reflexivity|].
  assert (R : run still = Ok tt (final still)) by (vm_compute; reflexivity).
  pose proof (C3_six_independent_panels still (final still) R) as (H & _).
  exact H.
Defined.
